(** * aetros/starter.py: the job supervisor [start_custom]

    A shallow embedding of [start_custom], [execute_command] and
    [execute_command_stdout].  The supervisor talks to the outside world
    (logger, job backend, file system, child processes); each such call
    is recorded as an [event], and what the outside world answers is read
    from a [world] record.  A run is the list of events it produced
    together with the way it ended: it returned, it called [sys.exit], or
    an exception left the function.

    Left out: the environment overlay [my_env] handed to the command
    (lines 51-59), the unused [resources] lookup (lines 156-159), and the
    functions [start], [git_execute] and [start_keras].  Starting a
    program is taken to succeed, and a [KeyboardInterrupt] is taken to
    arrive while the supervisor blocks in [p.wait()] on the job's
    command; the handler itself is embedded for every state of its
    locals. *)

From Stdlib Require Import ZArith Ascii String List Bool Lia.
From stdpp Require Import base option list strings gmap fin_maps.

Open Scope string_scope.
Open Scope Z_scope.
Open Scope list_scope.

(** ** Strings *)

Definition nl : string := String "010"%char EmptyString.
Definition dquote : string := String "034"%char EmptyString.

(** [sep.join(l)] is [String.concat sep l] and [s.startswith(p)] is
    [String.prefix p s]. *)

(** [s.split('\n')]. *)
Fixpoint split_lines (s : string) : list string :=
  match s with
  | EmptyString => [EmptyString]
  | String c s' =>
      if Ascii.eqb c "010"%char then EmptyString :: split_lines s'
      else match split_lines s' with
           | [] => [String c EmptyString]
           | l :: ls => String c l :: ls
           end
  end.

Fixpoint has_newline (s : string) : bool :=
  match s with
  | EmptyString => false
  | String c s' => Ascii.eqb c "010"%char || has_newline s'
  end.

(** A line of a build file is a comment when it starts with [#]. *)
Definition is_comment (line : string) : bool := String.prefix "#" line.

Definition first_line (content : string) : option string :=
  head (split_lines content).

Definition first_non_comment_line (content : string) : option string :=
  List.find (fun l => negb (is_comment l)) (split_lines content).

(** ** Configuration

    A configuration value is a string or a list of strings
    ([isinstance(x, six.string_types)] / [isinstance(x, list)]).

    [dockerfile] and [install] are subscripted and tested for truth and
    type only; for them [None] is the value [None], which is also what
    a key the project file leaves out holds.

    [command] and [image] are looked up with [in]: for them [None] is
    the absent key, and a key that is present holds a value of its
    type.  A configuration that stores anything else under these keys,
    [None] included, is not a value of the records below. *)

Inductive str_or_list :=
| Str (s : string)
| Lst (l : list string).

(** Python truthiness of such a value. *)
Definition truthy (v : option str_or_list) : bool :=
  match v with
  | None => false
  | Some (Str s) => negb (String.eqb s "")
  | Some (Lst l) => negb (Nat.eqb (List.length l) 0)
  end.

Definition is_Some_bool {A} (o : option A) : bool :=
  match o with Some _ => true | None => false end.

(** [v == '']. *)
Definition is_empty_string (v : str_or_list) : bool :=
  match v with
  | Str s => String.eqb s ""
  | Lst _ => false
  end.

(** [job_backend.job['config']]: the keys [start_custom] reads.
    [job_command = None] is ['command' not in job_config]. *)
Record job_config := {
  job_command : option str_or_list;
  job_image : option string
}.

(** [read_config(work_tree + '/.aetros.yml')]: [read_config] fills in
    the keys a project file leaves out, so [dockerfile], [install],
    [docker] and [docker_options] can be subscripted.
    [project_command = None] is ['command' not in project_config]. *)
Record project_config := {
  project_command : option str_or_list;
  dockerfile : option str_or_list;
  install : option str_or_list;
  docker : string;
  docker_options : list string
}.

Record job_backend := {
  model_name : string;
  job_id : string;
  work_tree : string;
  config : job_config
}.

(** ** Events and outcomes *)

Inductive value :=
| VStr (s : string)
| VInt (n : Z)
| VJson (s : string).

Inductive stream := Stdout | Stderr.

Inductive event :=
| LogInfo (msg : string)
| LogWarning (msg : string)
| LogCommand (argv : list string)   (* logger.warning("$ %s " % str(command)) *)
| LogError (msg : string)
| Chdir (path : string)
| SetSystemInfo (key : string) (v : value)
| WriteFile (path content : string)
| CommitFile (path : string)
| BatchBegin (label : string)       (* entering  with git.batch_commit(label) *)
| BatchEnd                         (* leaving it *)
| JobSection (name : string)
| Popen (argv : list string)
| Attach (s : stream)               (* sys.stdout.attach / sys.stderr.attach *)
| Wait                             (* p.wait() returned: the child is gone *)
| WaitInterrupted                  (* p.wait() left by KeyboardInterrupt *)
| Finalize (s : stream)             (* wait_stdout() / wait_stderr() *)
| Communicate                      (* p.communicate(input) *)
| StderrWrite
| Call (argv : list string)         (* subprocess.call *)
| Poll                             (* p.poll() *)
| HasFile (path : string)
| JobFail (msg : option string)
| JobStop
| JobAbort.

Inductive exn := TypeError | KeyError | KeyboardInterrupt.

Inductive outcome (A : Type) :=
| Ret (a : A)
| SysExit (code : Z)
| Raise (e : exn).
Arguments Ret {A} a.
Arguments SysExit {A} code.
Arguments Raise {A} e.

(** A computation: the events it emitted, in order, and how it ended. *)
Definition M (A : Type) : Type := (list event * outcome A)%type.

Definition trace {A} (m : M A) : list event := fst m.
Definition result {A} (m : M A) : outcome A := snd m.

#[global] Instance M_ret : MRet M := fun A a => ([], Ret a).
#[global] Instance M_bind : MBind M := fun A B f m =>
  match snd m with
  | Ret a => (fst m ++ fst (f a), snd (f a))
  | SysExit n => (fst m, SysExit n)
  | Raise e => (fst m, Raise e)
  end.

Definition emit (e : event) : M unit := ([e], Ret tt).
Definition sys_exit {A} (code : Z) : M A := ([], SysExit code).
Definition raise {A} (e : exn) : M A := ([], Raise e).

(** [try: body  except KeyboardInterrupt: handler]. *)
Definition try_except {A} (body : M A) (handler : M A) : M A :=
  match snd body with
  | Raise KeyboardInterrupt => (fst body ++ fst handler, snd handler)
  | _ => body
  end.

(** ** Build-file synthesis (lines 88-104) *)

Definition provenance_line : string :=
  "# CREATED BY AETROS because of " +:+ dquote +:+ "install" +:+ dquote +:+ " or "
  +:+ dquote +:+ "dockerfile" +:+ dquote +:+ " config in .aetros.yml.".

(** The text written to [Dockerfile] when [project_config['dockerfile']]
    is not the path of an existing file.  [dockerfile.insert('FROM ' +
    image, 0)] passes a string where [list.insert] takes the index: it
    raises [TypeError]. *)
Definition dockerfile_content (image : string) (pc : project_config) : M string :=
  body ← match dockerfile pc with
         | Some (Str s) => mret s
         | Some (Lst (first :: rest)) =>
             (if String.prefix "FROM " first then mret tt else raise TypeError);;
             mret (String.concat nl (first :: rest))
         | _ =>
             let content := "FROM " +:+ image +:+ nl +:+ "RUN " in
             match install pc with
             | Some (Lst l) => mret (content +:+ String.concat (nl +:+ " RUN ") l)
             | Some (Str s) => mret (content +:+ s)
             | None => raise TypeError
             end
         end;
  mret (provenance_line +:+ nl +:+ body).

(** ** The outside world *)

(** One object of the array [docker inspect] prints, with the eight
    fields [start_custom] reads. *)
Record inspection := {
  Id : value;
  DockerVersion : value;
  Created : value;
  Container : value;
  Architecture : value;
  Os : value;
  Size : value;
  RootFS : value
}.

(** What the environment answers.  A child is described by the exit code
    and the standard output it ends with; starting a program is taken to
    succeed.  [keyboard_interrupt] says whether a [KeyboardInterrupt]
    reaches the supervisor while it blocks in [p.wait()] on the job's
    command, and [poll_is_none] whether the child is then still running
    when the handler polls it. *)
Record world := {
  read_config : string -> project_config;
  path_exists : string -> bool;              (* os.path.exists *)
  returncode : list string -> Z;             (* p.returncode once the child is gone *)
  stdout_of : list string -> string;         (* out of p.communicate() *)
  json_loads : string -> list inspection;    (* json.loads(out.decode('utf-8')) *)
  keyboard_interrupt : bool;
  poll_is_none : bool;                       (* p.poll() is None *)
  has_file : string -> bool                  (* job_backend.git.has_file *)
}.

(** ** [execute_command] (lines 226-235) and [execute_command_stdout]
    (lines 214-223) *)

(** Returns [p]; the callers read [p.returncode] only. *)
Definition execute_command (w : world) (args : list string) : M Z :=
  emit (Popen args);;
  emit (Attach Stdout);;
  emit (Attach Stderr);;
  emit Wait;;
  emit (Finalize Stdout);;
  emit (Finalize Stderr);;
  mret (returncode w args).

(** [command] is a list at the only call, so the message
    ['Could not execute command: ' + command] is a [TypeError]. *)
Definition execute_command_stdout (w : world) (command : list string) : M string :=
  emit (Popen command);;
  emit Communicate;;
  (if negb (returncode w command =? 0) then
     emit StderrWrite;;
     emit StderrWrite;;
     raise TypeError
   else mret tt);;
  mret (stdout_of w command).

(** ** [start_custom] (lines 46-211) *)

Definition missing_command_message : string :=
  "No " +:+ dquote +:+ "command" +:+ dquote
  +:+ " specified in .aetros.yml file. See Configuration section in the documentation.".

(** Lines 65-72. *)
Definition resolve_command (job_config : job_config) (project_config : project_config)
  : M str_or_list :=
  (if negb (is_Some_bool (job_command job_config))
      && match project_command project_config with
         | None => true
         | Some command => is_empty_string command
         end
   then emit (LogError missing_command_message);; sys_exit 1
   else mret tt);;
  match job_command job_config with
  | Some command => mret command
  | None =>
      match project_command project_config with
      | Some command => mret command
      | None => raise KeyError
      end
  end.

(** Lines 85-110: the file the image is built from.  An existing path
    is used as it is; otherwise [Dockerfile] is written and committed. *)
Definition build_file (w : world) (project_config : project_config) (image : string)
  : M string :=
  match dockerfile project_config with
  | Some (Str path) =>
      if path_exists w path then mret path
      else
        dockerfile_content ← dockerfile_content image project_config;
        emit (WriteFile "Dockerfile" dockerfile_content);;
        emit (CommitFile "Dockerfile");;
        mret "Dockerfile"
  | _ =>
      dockerfile_content ← dockerfile_content image project_config;
      emit (WriteFile "Dockerfile" dockerfile_content);;
      emit (CommitFile "Dockerfile");;
      mret "Dockerfile"
  end.

Definition docker_build (job_backend : job_backend) (project_config : project_config)
    (dockerfile : string) : list string :=
  [docker project_config; "build"; "-t"; model_name job_backend; "-f"; dockerfile; "."].

(** Lines 81-149: record the image name, build a derived image when the
    project asks for one, pull, inspect, record what the inspection
    says, remove a stale container.  Returns [image]. *)
Definition provision_image (w : world) (job_backend : job_backend)
    (project_config : project_config) (image : string) : M string :=
  emit (SetSystemInfo "image/name" (VStr image));;
  image ←
    (if truthy (dockerfile project_config) || truthy (install project_config) then
       dockerfile ← build_file w project_config image;
       let docker_build := docker_build job_backend project_config dockerfile in
       emit (LogInfo ("Prepare docker image: $ " +:+ String.concat " " docker_build));;
       p ← execute_command w docker_build;
       (if negb (p =? 0) then
          emit (JobFail (Some "Image build error"));;
          sys_exit p
        else mret tt);;
       mret (model_name job_backend)
     else mret image);
  emit (LogInfo ("Pull docker image: $ " +:+ image));;
  execute_command w [docker project_config; "pull"; image];;
  inspections ← execute_command_stdout w [docker project_config; "inspect"; image];
  match json_loads w inspections with
  | inspection :: _ =>
      emit (BatchBegin "Docker image");;
      emit (SetSystemInfo "image/id" (Id inspection));;
      emit (SetSystemInfo "image/docker_version" (DockerVersion inspection));;
      emit (SetSystemInfo "image/created" (Created inspection));;
      emit (SetSystemInfo "image/container" (Container inspection));;
      emit (SetSystemInfo "image/architecture" (Architecture inspection));;
      emit (SetSystemInfo "image/os" (Os inspection));;
      emit (SetSystemInfo "image/size" (Size inspection));;
      emit (SetSystemInfo "image/rootfs" (RootFS inspection));;
      emit BatchEnd
  | [] => mret tt
  end;;
  emit (Call [docker project_config; "rm"; job_id job_backend]);;
  mret image.

(** Lines 151-168: the argument vector of [docker run]. *)
Definition docker_command (job_backend : job_backend) (project_config : project_config)
    (image : string) (command : str_or_list) : list string :=
  let docker_command := [docker project_config; "run"; "--name"; job_id job_backend] in
  let docker_command := docker_command ++ docker_options project_config in
  let docker_command :=
    docker_command
    ++ ["--mount"; "type=bind,source=" +:+ work_tree job_backend +:+ ",destination=/exp"] in
  let docker_command := docker_command ++ ["-w"; "/exp"] in
  let docker_command := docker_command ++ [image] in
  match command with
  | Lst command => docker_command ++ command
  | Str command => docker_command ++ ["sh"; "-c"; command]
  end.

Definition project_of (w : world) (job_backend : job_backend) : project_config :=
  read_config w (work_tree job_backend +:+ "/.aetros.yml").

(** Lines 47-171: everything [start_custom] does before it launches the
    command; returns the argument vector to launch. *)
Definition resolve_argv (w : world) (job_backend : job_backend) : M (list string) :=
  let project_config := project_of w job_backend in
  let job_config := config job_backend in
  command ← resolve_command job_config project_config;
  emit (LogInfo ("Switch working directory to " +:+ work_tree job_backend));;
  emit (Chdir (work_tree job_backend));;
  command ←
    match job_image job_config with
    | Some image =>
        image ← provision_image w job_backend project_config image;
        mret (Lst (docker_command job_backend project_config image command))
    | None => mret command
    end;
  mret (match command with
        | Lst command => command
        | Str command => ["sh"; "-c"; command]
        end).

Definition status_file : string := "aetros/job/status/progress.json".

(** Lines 194-211, the [except KeyboardInterrupt] block, over the locals
    [p], [wait_stdout] and [wait_stderr] as they stand when the
    interrupt arrives ([None] while unassigned). *)
Definition on_keyboard_interrupt (w : world) (p : option (list string))
    (wait_stdout wait_stderr : option stream) : M unit :=
  match p with
  | Some _ =>
      emit Poll;;
      if poll_is_none w then
        emit Wait;;
        match wait_stdout with Some s => emit (Finalize s) | None => mret tt end;;
        match wait_stderr with Some s => emit (Finalize s) | None => mret tt end
      else mret tt
  | None => mret tt
  end;;
  emit (HasFile status_file);;
  if has_file w status_file then emit JobStop
  else
    emit (LogWarning "Job aborted.");;
    emit JobAbort.

(** Lines 173-211: log the command, launch it, attach the two drains,
    wait, and leave with the child's exit code. *)
Definition run_command (w : world) (command : list string) : M unit :=
  emit (LogCommand command);;
  try_except
    (emit (JobSection "command");;
     emit (Popen command);;
     emit (Attach Stdout);;
     emit (Attach Stderr);;
     (if keyboard_interrupt w then emit WaitInterrupted;; raise KeyboardInterrupt
      else emit Wait);;
     emit (Finalize Stdout);;
     emit (Finalize Stderr);;
     let returncode := returncode w command in
     emit (SetSystemInfo "exit_code" (VInt returncode));;
     (if negb (returncode =? 0) then emit (JobFail None) else mret tt);;
     sys_exit returncode)
    (on_keyboard_interrupt w (Some command) (Some Stdout) (Some Stderr)).

Definition start_custom (w : world) (job_backend : job_backend) : M unit :=
  command ← resolve_argv w job_backend;
  run_command w command.

(** ** The job record

    [JobBackend] (aetros/backend.py) keeps the job's status and its
    [system_info]; the two definitions below read a run's events the way
    the design document describes that record. *)

Inductive status := Running | Failed | Aborted | Stopped | Done.

Definition terminal_call (e : event) : option status :=
  match e with
  | JobFail _ => Some Failed
  | JobStop => Some Stopped
  | JobAbort => Some Aborted
  | _ => None
  end.

Fixpoint recorded_status (tr : list event) : option status :=
  match tr with
  | [] => None
  | e :: tr' =>
      match terminal_call e with
      | Some s => Some s
      | None => recorded_status tr'
      end
  end.

(** Modelled from the spec: the lifecycle kept by [JobBackend], which is
    not part of the sources at hand.  A terminal state is reached once:
    [fail()] gives [Failed], [stop()] gives [Stopped], [abort()] gives
    [Aborted]; a run that ends without any of these calls is [Done] when
    it leaves with exit code 0 and [Failed] when it leaves with another
    code or with an error. *)
Definition final_status (run : M unit) : status :=
  match recorded_status (trace run) with
  | Some s => s
  | None =>
      match result run with
      | SysExit 0 => Done
      | SysExit _ => Failed
      | Raise _ => Failed
      | Ret _ => Running
      end
  end.

(** Modelled from the spec: the store behind [set_system_info] and
    [git.batch_commit], which is not part of the sources at hand.  A
    write outside a scope is applied at once; inside a scope it is
    scheduled and applied when the scope is left; what a scope has
    scheduled and not yet committed is not observable. *)
Record store := {
  committed : gmap string value;
  pending : option (list (string * value))
}.

Definition apply_writes (m : gmap string value) (l : list (string * value))
  : gmap string value :=
  fold_left (fun m kv => <[kv.1 := kv.2]> m) l m.

Definition store_step (st : store) (e : event) : store :=
  match e with
  | BatchBegin _ =>
      {| committed := committed st; pending := Some [] |}
  | SetSystemInfo k v =>
      match pending st with
      | Some l => {| committed := committed st; pending := Some (l ++ [(k, v)]) |}
      | None => {| committed := <[k := v]> (committed st); pending := None |}
      end
  | BatchEnd =>
      match pending st with
      | Some l => {| committed := apply_writes (committed st) l; pending := None |}
      | None => st
      end
  | _ => st
  end.

Definition store_run (st : store) (tr : list event) : store :=
  fold_left store_step tr st.

Definition new_store : store := {| committed := ∅; pending := None |}.

(** What a reader of the job record sees once the events [tr] happened. *)
Definition observable (tr : list event) : gmap string value :=
  committed (store_run new_store tr).

(** [keys] are written atomically by a run with events [tr]: whenever
    the run is cut, the record holds all of them or none. *)
Definition all_or_none (keys : list string) (m : gmap string value) : Prop :=
  Forall (fun k => is_Some (m !! k)) keys \/ Forall (fun k => m !! k = None) keys.

Definition atomic_for (keys : list string) (tr : list event) : Prop :=
  forall n : nat, all_or_none keys (observable (take n tr)).

Definition inspection_keys : list string :=
  ["image/id"; "image/docker_version"; "image/created"; "image/container";
   "image/architecture"; "image/os"; "image/size"; "image/rootfs"].

Definition image_keys : list string := "image/name" :: inspection_keys.

(** ** Definitions used to state the properties *)

(** [Q] holds of every event of [m] when [m] returns. *)
Definition when_returns (Q : event -> Prop) {A} (m : M A) : Prop :=
  forall a, result m = Ret a -> Forall Q (trace m).

(** [P] holds of the events of [m], however [m] ends. *)
Definition always (P : list event -> Prop) {A} (m : M A) : Prop := P (trace m).

Definition not_terminal (e : event) : Prop := terminal_call e = None.

(** A child process is started by [Popen] or by [subprocess.call]. *)
Definition spawns (e : event) : bool :=
  match e with
  | Popen _ | Call _ => true
  | _ => false
  end.

Definition no_spawn (e : event) : Prop := spawns e = false.

(** The events of lines 173-182: the command is logged, spawned, and the
    two drains are attached. *)
Definition launch (argv : list string) : list event :=
  [LogCommand argv; JobSection "command"; Popen argv; Attach Stdout; Attach Stderr].

(** The wrapping rule: a string goes through the shell, a vector is
    taken as it is. *)
Definition shell_wrap (command : str_or_list) : list string :=
  match command with
  | Str s => ["sh"; "-c"; s]
  | Lst argv => argv
  end.

(** The part of the [docker run] vector in front of the image. *)
Definition container_prefix (jb : job_backend) (pc : project_config) : list string :=
  [docker pc; "run"; "--name"; job_id jb]
  ++ docker_options pc
  ++ ["--mount"; "type=bind,source=" +:+ work_tree jb +:+ ",destination=/exp";
      "-w"; "/exp"].

(** *** The order of spawn, drains and wait

    An automaton over the events of one child: after [Popen] each stream
    gets its drain once; a wait starts only when both are attached; a
    finalizer is called once, and only when [p.wait()] has returned. *)
Inductive drain_state :=
| NotSpawned
| Spawned (out err : bool)      (* which drains are attached *)
| Waiting                       (* blocked in p.wait(), both drains attached *)
| Exited (out err : bool).      (* the child is gone; which finalizers ran *)

Definition drain_step (st : drain_state) (e : event) : option drain_state :=
  match e, st with
  | Popen _, NotSpawned => Some (Spawned false false)
  | Popen _, _ => None
  | Attach Stdout, Spawned false err => Some (Spawned true err)
  | Attach Stderr, Spawned out false => Some (Spawned out true)
  | Attach _, _ => None
  | WaitInterrupted, Spawned true true => Some Waiting
  | WaitInterrupted, _ => None
  | Wait, Spawned true true => Some (Exited false false)
  | Wait, Waiting => Some (Exited false false)
  | Wait, _ => None
  | Finalize Stdout, Exited false err => Some (Exited true err)
  | Finalize Stderr, Exited out false => Some (Exited out true)
  | Finalize _, _ => None
  | _, _ => Some st
  end.

Fixpoint drain_run (st : drain_state) (tr : list event) : option drain_state :=
  match tr with
  | [] => Some st
  | e :: tr' =>
      match drain_step st e with
      | Some st' => drain_run st' tr'
      | None => None
      end
  end.

(** *** A discipline on the events that makes a set of keys atomic

    Outside a scope none of [keys] is written; a scope writes all of
    [keys] or none of them; scopes do not nest and are closed. *)
Inductive scope :=
| Outside
| Inside (keys : list string).     (* keys scheduled so far, newest first *)

Definition mem (k : string) (ks : list string) : bool := existsb (String.eqb k) ks.

Definition scope_step (keys : list string) (s : scope) (e : event) : option scope :=
  match e, s with
  | BatchBegin _, Outside => Some (Inside [])
  | BatchBegin _, Inside _ => None
  | SetSystemInfo k _, Outside => if mem k keys then None else Some Outside
  | SetSystemInfo k _, Inside ks => Some (Inside (k :: ks))
  | BatchEnd, Inside ks =>
      if forallb (fun k => mem k ks) keys || forallb (fun k => negb (mem k ks)) keys
      then Some Outside else None
  | BatchEnd, Outside => None
  | _, _ => Some s
  end.

Fixpoint scope_run (keys : list string) (s : scope) (tr : list event) : option scope :=
  match tr with
  | [] => Some s
  | e :: tr' =>
      match scope_step keys s e with
      | Some s' => scope_run keys s' tr'
      | None => None
      end
  end.

Definition disciplined (keys : list string) (tr : list event) : Prop :=
  scope_run keys Outside tr = Some Outside.

(** The store and the scope of the discipline go together. *)
Definition store_in_scope (st : store) (s : scope) : Prop :=
  match s with
  | Outside => pending st = None
  | Inside ks => exists l, pending st = Some l /\ map fst l = rev ks
  end.

(** ** Sample configurations and worlds *)

Definition pc_plain : project_config :=
  {| project_command := Some (Str "python train.py"); dockerfile := None;
     install := None; docker := "docker"; docker_options := [] |}.

Definition pc_vector : project_config :=
  {| project_command := Some (Lst ["python"; "train.py"; "--epochs"; "3"]);
     dockerfile := None; install := None; docker := "docker"; docker_options := [] |}.

Definition pc_no_command : project_config :=
  {| project_command := None; dockerfile := None; install := None;
     docker := "docker"; docker_options := [] |}.

Definition pc_literal : project_config :=
  {| project_command := Some (Str "python train.py");
     dockerfile := Some (Str ("FROM python:3.6" +:+ nl +:+ "RUN pip install keras"));
     install := None;
     docker := "docker";
     docker_options := [] |}.

Definition pc_lines : project_config :=
  {| project_command := Some (Str "python train.py");
     dockerfile := Some (Lst ["RUN pip install keras"]);
     install := None;
     docker := "docker";
     docker_options := [] |}.

Definition pc_install : project_config :=
  {| project_command := Some (Str "python train.py");
     dockerfile := None;
     install := Some (Lst ["pip install keras"; "pip install h5py"]);
     docker := "docker";
     docker_options := ["--rm"] |}.

Definition insp_ubuntu : inspection :=
  {| Id := VStr "sha256:4e5021d210f6";
     DockerVersion := VStr "17.06.0-ce";
     Created := VStr "2017-08-10T01:20:21Z";
     Container := VStr "a1b2c3";
     Architecture := VStr "amd64";
     Os := VStr "linux";
     Size := VInt 122000000;
     RootFS := VJson "{}" |}.

Definition jb_plain : job_backend :=
  {| model_name := "owner/model"; job_id := "a1f3"; work_tree := "/jobs/a1f3";
     config := {| job_command := None; job_image := None |} |}.

Definition jb_image : job_backend :=
  {| model_name := "owner/model"; job_id := "a1f3"; work_tree := "/jobs/a1f3";
     config := {| job_command := None; job_image := Some "ubuntu:16.04" |} |}.

(** A world in which every child succeeds and nothing interrupts. *)
Definition quiet_world (pc : project_config) : world :=
  {| read_config := fun _ => pc;
     path_exists := fun _ => false;
     returncode := fun _ => 0;
     stdout_of := fun _ => "[{}]";
     json_loads := fun _ => [insp_ubuntu];
     keyboard_interrupt := false;
     poll_is_none := true;
     has_file := fun _ => false |}.

(** Every child ends with code 37. *)
Definition world_exit_37 : world :=
  {| read_config := fun _ => pc_plain;
     path_exists := fun _ => false;
     returncode := fun _ => 37;
     stdout_of := fun _ => "[{}]";
     json_loads := fun _ => [insp_ubuntu];
     keyboard_interrupt := false;
     poll_is_none := true;
     has_file := fun _ => false |}.

(** The interrupt arrives while the command runs; [nested_status] says
    whether the command has written its own status file. *)
Definition world_interrupted (nested_status : bool) : world :=
  {| read_config := fun _ => pc_plain;
     path_exists := fun _ => false;
     returncode := fun _ => 0;
     stdout_of := fun _ => "[{}]";
     json_loads := fun _ => [insp_ubuntu];
     keyboard_interrupt := true;
     poll_is_none := true;
     has_file := fun path => nested_status && String.eqb path status_file |}.

(** [docker build] ends with code 2. *)
Definition world_build_fails : world :=
  {| read_config := fun _ => pc_install;
     path_exists := fun _ => false;
     returncode := fun args =>
       match args with
       | _ :: "build" :: _ => 2
       | _ => 0
       end;
     stdout_of := fun _ => "[{}]";
     json_loads := fun _ => [insp_ubuntu];
     keyboard_interrupt := false;
     poll_is_none := true;
     has_file := fun _ => false |}.

(** [docker pull] ends with code 1; the image is available locally, so
    [docker inspect] succeeds. *)
Definition world_pull_fails : world :=
  {| read_config := fun _ => pc_plain;
     path_exists := fun _ => false;
     returncode := fun args =>
       match args with
       | [_; "pull"; _] => 1
       | _ => 0
       end;
     stdout_of := fun _ => "[{}]";
     json_loads := fun _ => [insp_ubuntu];
     keyboard_interrupt := false;
     poll_is_none := true;
     has_file := fun _ => false |}.

(** ** Further definitions used to state the properties *)

(** What a [WriteFile] event is in a run with project configuration
    [pc] and job-level image [image]: the build file, written to
    [Dockerfile] with the content [dockerfile_content] returns. *)
Definition writes_build_file (pc : project_config) (image : option string)
    (e : event) : Prop :=
  match e with
  | WriteFile path content =>
      exists i,
        image = Some i
        /\ path = "Dockerfile"
        /\ result (dockerfile_content i pc) = Ret content
  | _ => True
  end.

(** The order of spawn, drains and wait over a whole run, child after
    child.  A child drained through [attach] goes through the states of
    [drain_step] and is done when both finalizers have run.  With
    [strict] every child has to be drained that way; without it a child
    may also be read with [communicate()], or be run by
    [subprocess.call], which both wait for it themselves. *)
Definition supervise_step (strict : bool) (st : drain_state) (e : event)
  : option drain_state :=
  match e, st with
  | Popen _, NotSpawned => Some (Spawned false false)
  | Popen _, _ => None
  | Call _, NotSpawned => if strict then None else Some NotSpawned
  | Call _, _ => None
  | Communicate, Spawned false false => if strict then None else Some NotSpawned
  | Communicate, _ => None
  | Attach Stdout, Spawned false err => Some (Spawned true err)
  | Attach Stderr, Spawned out false => Some (Spawned out true)
  | Attach _, _ => None
  | WaitInterrupted, Spawned true true => Some Waiting
  | WaitInterrupted, _ => None
  | Wait, Spawned true true => Some (Exited false false)
  | Wait, Waiting => Some (Exited false false)
  | Wait, _ => None
  | Finalize Stdout, Exited false false => Some (Exited true false)
  | Finalize Stdout, Exited false true => Some NotSpawned
  | Finalize Stderr, Exited false false => Some (Exited false true)
  | Finalize Stderr, Exited true false => Some NotSpawned
  | Finalize _, _ => None
  | _, _ => Some st
  end.

Fixpoint supervise_run (strict : bool) (st : drain_state) (tr : list event)
  : option drain_state :=
  match tr with
  | [] => Some st
  | e :: tr' =>
      match supervise_step strict st e with
      | Some st' => supervise_run strict st' tr'
      | None => None
      end
  end.

(** Every child of the run has been waited for, and drained where it
    was drained through [attach]. *)
Definition supervised (tr : list event) : Prop :=
  supervise_run false NotSpawned tr = Some NotSpawned.

Definition no_drain (e : event) : Prop :=
  match e with
  | Attach _ | Finalize _ => False
  | _ => True
  end.

Definition jb_empty_command : job_backend :=
  {| model_name := "owner/model"; job_id := "a1f3"; work_tree := "/jobs/a1f3";
     config := {| job_command := Some (Str ""); job_image := None |} |}.

(** * Properties *)

(** ** The computation monad *)

Lemma bind_ret {A B} (m : M A) (f : A -> M B) (a : A) :
  result m = Ret a ->
  m ≫= f = (trace m ++ trace (f a), result (f a)).
Proof.
  unfold mbind, M_bind, result, trace. intros ->. reflexivity.
Qed.

Lemma bind_sys_exit {A B} (m : M A) (f : A -> M B) (n : Z) :
  result m = SysExit n ->
  m ≫= f = (trace m, SysExit n).
Proof.
  unfold mbind, M_bind, result, trace. intros ->. reflexivity.
Qed.

Lemma bind_raise {A B} (m : M A) (f : A -> M B) (e : exn) :
  result m = Raise e ->
  m ≫= f = (trace m, Raise e).
Proof.
  unfold mbind, M_bind, result, trace. intros ->. reflexivity.
Qed.

(** ** Lines of a string *)

Lemma split_lines_app_nl (s t : string) :
  has_newline s = false ->
  split_lines (s +:+ nl +:+ t) = s :: split_lines t.
Proof.
  induction s as [|c s IH]; simpl; intros H.
  - reflexivity.
  - apply orb_false_iff in H as [Hc Hs].
    rewrite Hc, (IH Hs). reflexivity.
Qed.

Lemma provenance_line_one_line : has_newline provenance_line = false.
Proof. reflexivity. Qed.

Lemma provenance_line_is_comment : is_comment provenance_line = true.
Proof. reflexivity. Qed.

Lemma from_line_no_newline (image : string) :
  has_newline image = false -> has_newline ("FROM " +:+ image) = false.
Proof. intros H. simpl. exact H. Qed.

(** What [dockerfile_content] returns is the provenance comment, a
    newline, and a body. *)
Lemma dockerfile_content_header (image : string) (pc : project_config) (content : string) :
  result (dockerfile_content image pc) = Ret content ->
  exists body, content = provenance_line +:+ nl +:+ body.
Proof.
  unfold dockerfile_content.
  destruct (dockerfile pc) as [[s|[|first rest]]|];
    try destruct (install pc) as [[s'|l']|];
    try destruct (String.prefix "FROM " first);
    cbn; intros H; inversion H; eauto.
Qed.

Lemma append_assoc (a b c : string) : (a +:+ b) +:+ c = a +:+ b +:+ c.
Proof.
  induction a as [|x a IH]; [reflexivity|].
  change (String x ((a +:+ b) +:+ c) = String x (a +:+ b +:+ c)).
  f_equal. exact IH.
Qed.

(** ** C1: the synthesized build file *)

(** C1, as stated, fails: a [dockerfile] given as literal text is written
    as it is under the provenance comment, so with image [ubuntu:16.04]
    and the text [FROM python:3.6 / RUN pip install keras] the first line
    that is not a comment is [FROM python:3.6], not [FROM ubuntu:16.04]. *)
Lemma C1_counterexample :
  result (dockerfile_content "ubuntu:16.04" pc_literal)
  = Ret (provenance_line +:+ nl +:+ "FROM python:3.6" +:+ nl +:+ "RUN pip install keras")
  /\ first_non_comment_line
       (provenance_line +:+ nl +:+ "FROM python:3.6" +:+ nl +:+ "RUN pip install keras")
     = Some "FROM python:3.6"
  /\ Some "FROM python:3.6" <> Some ("FROM " +:+ "ubuntu:16.04")
  /\ In (WriteFile "Dockerfile"
          (provenance_line +:+ nl +:+ "FROM python:3.6" +:+ nl +:+ "RUN pip install keras"))
        (trace (start_custom (quiet_world pc_literal) jb_image)).
Proof.
  split; [reflexivity|]. split; [reflexivity|]. split; [discriminate|].
  do 3 right. left. reflexivity.
Qed.

(** What [dockerfile_content] returns: the first line is the provenance
    comment; literal text follows it as it is; a list of lines whose
    first line starts with [FROM ] follows it joined by newlines; and
    when no dockerfile is given (absent, or an empty list) the first
    line that is not a comment is [FROM <image>], whether [install] is
    one string or a list. *)
Lemma dockerfile_content_shape (image : string) (pc : project_config) (content : string) :
  result (dockerfile_content image pc) = Ret content ->
  first_line content = Some provenance_line
  /\ is_comment provenance_line = true
  /\ (forall text, dockerfile pc = Some (Str text) ->
        content = provenance_line +:+ nl +:+ text)
  /\ (forall first rest, dockerfile pc = Some (Lst (first :: rest)) ->
        String.prefix "FROM " first = true ->
        content = provenance_line +:+ nl +:+ String.concat nl (first :: rest))
  /\ (dockerfile pc = None \/ dockerfile pc = Some (Lst []) ->
        has_newline image = false ->
        first_non_comment_line content = Some ("FROM " +:+ image)).
Proof.
  intros Hret. split.
  { destruct (dockerfile_content_header _ _ _ Hret) as [body ->].
    unfold first_line.
    now rewrite (split_lines_app_nl _ _ provenance_line_one_line). }
  split; [exact provenance_line_is_comment|].
  unfold dockerfile_content in Hret. repeat split.
  - intros text Hd. rewrite Hd in Hret. cbn in Hret. now inversion Hret.
  - intros first rest Hd Hfrom. rewrite Hd in Hret. cbn -[String.prefix] in Hret.
    rewrite Hfrom in Hret. cbn in Hret. now inversion Hret.
  - intros Hd Himage.
    assert (exists steps, content
            = provenance_line +:+ nl +:+ ("FROM " +:+ image) +:+ nl +:+ "RUN " +:+ steps)
      as [steps ->].
    { destruct Hd as [Hd|Hd]; rewrite Hd in Hret;
        destruct (install pc) as [[s|l]|]; cbn in Hret; inversion Hret;
        [exists s | exists (String.concat (nl +:+ " RUN ") l)
        |exists s | exists (String.concat (nl +:+ " RUN ") l)];
        cbn; rewrite ?append_assoc; reflexivity. }
    unfold first_non_comment_line.
    rewrite (split_lines_app_nl _ _ provenance_line_one_line).
    rewrite (split_lines_app_nl _ _ (from_line_no_newline _ Himage)).
    reflexivity.
Qed.

(** A list of lines that does not start with [FROM ] is not covered
    above: [dockerfile.insert('FROM ' + image, 0)] raises [TypeError]
    and no build file is written. *)
Lemma dockerfile_lines_without_from :
  dockerfile_content "ubuntu:16.04" pc_lines = ([], Raise TypeError).
Proof. reflexivity. Qed.

(** ** The shape of a run *)

Lemma start_custom_launches (w : world) (jb : job_backend) (argv : list string) :
  result (resolve_argv w jb) = Ret argv ->
  start_custom w jb
  = (trace (resolve_argv w jb) ++ trace (run_command w argv), result (run_command w argv)).
Proof. intros H. unfold start_custom. now rewrite (bind_ret _ _ _ H). Qed.

Lemma start_custom_exits_early (w : world) (jb : job_backend) (n : Z) :
  result (resolve_argv w jb) = SysExit n ->
  start_custom w jb = (trace (resolve_argv w jb), SysExit n).
Proof. intros H. unfold start_custom. now rewrite (bind_sys_exit _ _ _ H). Qed.

Lemma run_command_completes (w : world) (argv : list string) :
  keyboard_interrupt w = false ->
  run_command w argv
  = (launch argv
     ++ [Wait; Finalize Stdout; Finalize Stderr;
         SetSystemInfo "exit_code" (VInt (returncode w argv))]
     ++ (if returncode w argv =? 0 then [] else [JobFail None]),
     SysExit (returncode w argv)).
Proof.
  intros Hk. unfold run_command. rewrite Hk.
  destruct (returncode w argv =? 0); reflexivity.
Qed.

Lemma run_command_interrupted (w : world) (argv : list string) :
  keyboard_interrupt w = true ->
  run_command w argv
  = (launch argv
     ++ [WaitInterrupted; Poll]
     ++ (if poll_is_none w then [Wait; Finalize Stdout; Finalize Stderr] else [])
     ++ [HasFile status_file]
     ++ (if has_file w status_file then [JobStop]
         else [LogWarning "Job aborted."; JobAbort]),
     Ret tt).
Proof.
  intros Hk. unfold run_command, on_keyboard_interrupt. rewrite Hk.
  destruct (poll_is_none w), (has_file w status_file); reflexivity.
Qed.

(** ** Command resolution *)

Lemma resolve_command_returns (jc : job_config) (pc : project_config) (command : str_or_list) :
  result (resolve_command jc pc) = Ret command ->
  resolve_command jc pc = ([], Ret command).
Proof.
  unfold resolve_command.
  destruct (job_command jc) as [c|]; cbn.
  - intros H; inversion H; reflexivity.
  - destruct (project_command pc) as [c|]; cbn; [|discriminate].
    destruct (is_empty_string c); cbn; [discriminate|].
    intros H; inversion H; reflexivity.
Qed.

(** The job-level command wins over the project-level one. *)
Lemma resolve_command_job_level (jc : job_config) (pc : project_config) (c : str_or_list) :
  job_command jc = Some c -> resolve_command jc pc = ([], Ret c).
Proof. unfold resolve_command. intros ->. reflexivity. Qed.

(** ** C4: no command at either level *)

(** C4, as stated, fails: a job-level [command] that is present and
    empty passes the test of line 65, which asks at the job level only
    whether the key is there.  With [command: ''] in the job
    configuration and no command in the project, the run launches
    [sh -c ''] and leaves with the child's exit code. *)
Lemma C4_counterexample :
  job_command (config jb_empty_command) = Some (Str "")
  /\ project_command (project_of (quiet_world pc_no_command) jb_empty_command) = None
  /\ start_custom (quiet_world pc_no_command) jb_empty_command
     = ([LogInfo "Switch working directory to /jobs/a1f3";
         Chdir "/jobs/a1f3";
         LogCommand ["sh"; "-c"; ""];
         JobSection "command";
         Popen ["sh"; "-c"; ""];
         Attach Stdout; Attach Stderr; Wait; Finalize Stdout; Finalize Stderr;
         SetSystemInfo "exit_code" (VInt 0)],
        SysExit 0).
Proof. repeat split. Qed.

(** C4, amended.  When the job configuration has no [command] key and
    the project configuration has none either, or has the empty string,
    the run logs the missing-command error and leaves with exit code 1;
    that log line is its only event, so no child process is spawned.
    In every other case the command is resolved without that error: a
    job-level [command] that is present is used as it is, also when it
    is empty, and otherwise the project-level command is. *)
Theorem C4_missing_command (w : world) (jb : job_backend) :
  let pc := project_of w jb in
  (job_command (config jb) = None ->
   project_command pc = None \/ project_command pc = Some (Str "") ->
   start_custom w jb = ([LogError missing_command_message], SysExit 1)
   /\ Forall (fun e => spawns e = false) (trace (start_custom w jb)))
  /\ (forall c, job_command (config jb) = Some c ->
        resolve_command (config jb) pc = ([], Ret c))
  /\ (forall c, job_command (config jb) = None ->
        project_command pc = Some c ->
        c <> Str "" ->
        resolve_command (config jb) pc = ([], Ret c)).
Proof.
  intros pc. split; [|split].
  - intros Hjob Hproject.
    assert (resolve_argv w jb = ([LogError missing_command_message], SysExit 1)) as Hr.
    { unfold resolve_argv, resolve_command. fold pc. rewrite Hjob.
      destruct Hproject as [-> | ->]; reflexivity. }
    assert (start_custom w jb = ([LogError missing_command_message], SysExit 1)) as Hs.
    { rewrite (start_custom_exits_early w jb 1); rewrite Hr; reflexivity. }
    split; [exact Hs|].
    rewrite Hs. repeat constructor.
  - intros c Hjob. unfold resolve_command. rewrite Hjob. reflexivity.
  - intros c Hjob Hproject Hne. unfold resolve_command. rewrite Hjob, Hproject.
    destruct c as [s|l]; [|reflexivity].
    destruct (String.eqb_spec s "") as [->|Hs]; [contradiction|].
    cbn. apply String.eqb_neq in Hs. rewrite Hs. reflexivity.
Qed.

Lemma C4_missing_command_witness :
  job_command (config jb_plain) = None
  /\ project_command (project_of (quiet_world pc_no_command) jb_plain) = None
  /\ start_custom (quiet_world pc_no_command) jb_plain
     = ([LogError missing_command_message], SysExit 1)
  /\ resolve_command (config jb_empty_command)
       (project_of (quiet_world pc_no_command) jb_empty_command)
     = ([], Ret (Str ""))
  /\ resolve_command (config jb_plain) (project_of (quiet_world pc_vector) jb_plain)
     = ([], Ret (Lst ["python"; "train.py"; "--epochs"; "3"])).
Proof.
  split; [reflexivity|]. split; [reflexivity|].
  destruct (C4_missing_command (quiet_world pc_no_command) jb_plain) as (Hmissing & _ & _).
  destruct (C4_missing_command (quiet_world pc_no_command) jb_empty_command)
    as (_ & Hjob & _).
  destruct (C4_missing_command (quiet_world pc_vector) jb_plain) as (_ & _ & Hproject).
  split; [exact (proj1 (Hmissing eq_refl (or_introl eq_refl)))|].
  split; [exact (Hjob (Str "") eq_refl)|].
  apply Hproject; [reflexivity | reflexivity | discriminate].
Defined.

(** ** What holds of the events of a computation that returns *)

Section WhenReturns.
Variable Q : event -> Prop.

Lemma when_returns_mret {A} (a : A) : when_returns Q (mret a).
Proof. intros ? _. constructor. Qed.

Lemma when_returns_emit (e : event) : Q e -> when_returns Q (emit e).
Proof. intros H ? _. repeat constructor. exact H. Qed.

Lemma when_returns_sys_exit {A} (n : Z) : when_returns Q (@sys_exit A n).
Proof. intros ? H. discriminate H. Qed.

Lemma when_returns_raise {A} (e : exn) : when_returns Q (@raise A e).
Proof. intros ? H. discriminate H. Qed.

Lemma when_returns_bind {A B} (m : M A) (f : A -> M B) :
  when_returns Q m -> (forall a, when_returns Q (f a)) -> when_returns Q (m ≫= f).
Proof.
  intros Hm Hf b. unfold mbind, M_bind.
  destruct m as [tr [a|n|e]]; cbn; try discriminate.
  intros Hb. apply Forall_app. split.
  - exact (Hm a eq_refl).
  - exact (Hf a b Hb).
Qed.

End WhenReturns.

(** [leaf] closes the goals about computations defined elsewhere. *)
Ltac when_returns_with leaf :=
  repeat first
    [ leaf
    | solve [intros ? H; cbn in H; discriminate H]
    | apply when_returns_mret
    | apply when_returns_sys_exit
    | apply when_returns_raise
    | apply when_returns_emit; reflexivity
    | apply when_returns_bind
    | match goal with
      | |- forall _, _ => intro
      | |- when_returns _ (match ?x with _ => _ end) => destruct x
      | |- when_returns _ (if ?x then _ else _) => destruct x
      end ].

Ltac when_returns_tac := when_returns_with fail.

Lemma recorded_status_none (tr : list event) :
  Forall not_terminal tr -> recorded_status tr = None.
Proof.
  induction 1 as [|e tr He _ IH]; [reflexivity|].
  simpl. rewrite He. exact IH.
Qed.

Lemma recorded_status_app (a b : list event) :
  recorded_status (a ++ b)
  = match recorded_status a with
    | Some s => Some s
    | None => recorded_status b
    end.
Proof.
  induction a as [|e a IH]; [reflexivity|].
  simpl. destruct (terminal_call e); [reflexivity | exact IH].
Qed.

Lemma execute_command_not_terminal (w : world) (args : list string) :
  when_returns not_terminal (execute_command w args).
Proof. unfold execute_command. when_returns_tac. Qed.

Lemma execute_command_stdout_not_terminal (w : world) (command : list string) :
  when_returns not_terminal (execute_command_stdout w command).
Proof. unfold execute_command_stdout. when_returns_tac. Qed.

Lemma dockerfile_content_not_terminal (image : string) (pc : project_config) :
  when_returns not_terminal (dockerfile_content image pc).
Proof. unfold dockerfile_content. when_returns_tac. Qed.

Lemma build_file_not_terminal (w : world) (pc : project_config) (image : string) :
  when_returns not_terminal (build_file w pc image).
Proof.
  unfold build_file.
  when_returns_with ltac:(apply dockerfile_content_not_terminal).
Qed.

Lemma provision_image_not_terminal (w : world) (jb : job_backend)
    (pc : project_config) (image : string) :
  when_returns not_terminal (provision_image w jb pc image).
Proof.
  unfold provision_image.
  when_returns_with
    ltac:(first [ apply build_file_not_terminal
                | apply execute_command_not_terminal
                | apply execute_command_stdout_not_terminal ]).
Qed.

Lemma resolve_argv_not_terminal (w : world) (jb : job_backend) :
  when_returns not_terminal (resolve_argv w jb).
Proof.
  unfold resolve_argv, resolve_command.
  when_returns_with ltac:(apply provision_image_not_terminal).
Qed.

Lemma final_status_after (pre post : list event) (o : outcome unit) (s : status) :
  Forall not_terminal pre ->
  recorded_status post = Some s ->
  final_status (pre ++ post, o) = s.
Proof.
  intros Hpre Hpost. unfold final_status, trace. cbn [fst].
  now rewrite recorded_status_app, (recorded_status_none _ Hpre), Hpost.
Qed.

(** ** C5: the child's exit code *)

(** C5.  When the run launches its command, is not interrupted, and the
    child ends with exit code [N]: [exit_code = N] is written to
    system_info, [fail()] is called exactly when [N] is not 0, the
    supervisor leaves through [sys.exit(N)], and the job ends [Done] for
    [N = 0] and [Failed] otherwise. *)
Theorem C5_exit_code_propagation (w : world) (jb : job_backend)
    (argv : list string) (N : Z) :
  result (resolve_argv w jb) = Ret argv ->
  keyboard_interrupt w = false ->
  returncode w argv = N ->
  start_custom w jb
  = (trace (resolve_argv w jb)
     ++ launch argv
     ++ [Wait; Finalize Stdout; Finalize Stderr; SetSystemInfo "exit_code" (VInt N)]
     ++ (if N =? 0 then [] else [JobFail None]),
     SysExit N)
  /\ In (SetSystemInfo "exit_code" (VInt N)) (trace (start_custom w jb))
  /\ result (start_custom w jb) = SysExit N
  /\ final_status (start_custom w jb) = (if N =? 0 then Done else Failed).
Proof.
  intros Hargv Hk HN.
  assert (start_custom w jb
          = (trace (resolve_argv w jb)
             ++ launch argv
             ++ [Wait; Finalize Stdout; Finalize Stderr; SetSystemInfo "exit_code" (VInt N)]
             ++ (if N =? 0 then [] else [JobFail None]),
             SysExit N)) as Hrun.
  { rewrite (start_custom_launches _ _ _ Hargv), (run_command_completes _ _ Hk), HN.
    reflexivity. }
  pose proof (resolve_argv_not_terminal w jb argv Hargv) as Hpre.
  split; [exact Hrun|]. rewrite Hrun. repeat split.
  - cbn [trace fst]. rewrite !in_app_iff. right. right. left. cbn. tauto.
  - destruct (Z.eqb_spec N 0) as [->|Hne].
    + unfold final_status, trace in *. cbn [fst snd].
      now rewrite recorded_status_app, (recorded_status_none _ Hpre).
    + now apply final_status_after.
Qed.

Lemma C5_exit_code_propagation_witness :
  result (resolve_argv world_exit_37 jb_plain) = Ret ["sh"; "-c"; "python train.py"]
  /\ result (start_custom world_exit_37 jb_plain) = SysExit 37
  /\ final_status (start_custom world_exit_37 jb_plain) = Failed
  /\ result (start_custom (quiet_world pc_plain) jb_plain) = SysExit 0
  /\ final_status (start_custom (quiet_world pc_plain) jb_plain) = Done.
Proof.
  split; [reflexivity|].
  destruct (C5_exit_code_propagation world_exit_37 jb_plain
              ["sh"; "-c"; "python train.py"] 37 eq_refl eq_refl eq_refl)
    as (_ & _ & Hexit & Hstatus).
  destruct (C5_exit_code_propagation (quiet_world pc_plain) jb_plain
              ["sh"; "-c"; "python train.py"] 0 eq_refl eq_refl eq_refl)
    as (_ & _ & Hexit0 & Hstatus0).
  repeat split; assumption.
Defined.

(** ** C6: interrupted runs *)

(** Whatever the locals hold when the interrupt arrives, the handler
    ends with the status-file check and the call it selects. *)
Lemma on_keyboard_interrupt_classifies (w : world) (p : option (list string))
    (wait_stdout wait_stderr : option stream) :
  exists pre,
    Forall not_terminal pre
    /\ on_keyboard_interrupt w p wait_stdout wait_stderr
       = (pre ++ HasFile status_file
              :: (if has_file w status_file then [JobStop]
                  else [LogWarning "Job aborted."; JobAbort]),
          Ret tt).
Proof.
  exists (match p with
          | Some _ =>
              Poll :: (if poll_is_none w then
                         Wait :: option_list (Finalize <$> wait_stdout)
                              ++ option_list (Finalize <$> wait_stderr)
                       else [])
          | None => []
          end).
  unfold on_keyboard_interrupt.
  destruct p as [argv|], (poll_is_none w), wait_stdout as [so|], wait_stderr as [se|],
    (has_file w status_file); cbn;
    (split; [|reflexivity]); repeat constructor.
Qed.

(** C6.  When the interrupt reaches the supervisor while it waits for the
    launched command, it polls the child; if the child is still running
    it waits for it and calls both drain finalizers; then it checks the
    nested status file and calls [stop()] if the file exists and
    [abort()] if not, so the job ends [Stopped] resp. [Aborted].  The
    classification is the same for every state of the locals the handler
    may find. *)
Theorem C6_interrupt_classification (w : world) (jb : job_backend) (argv : list string) :
  result (resolve_argv w jb) = Ret argv ->
  keyboard_interrupt w = true ->
  start_custom w jb
  = (trace (resolve_argv w jb)
     ++ launch argv
     ++ [WaitInterrupted; Poll]
     ++ (if poll_is_none w then [Wait; Finalize Stdout; Finalize Stderr] else [])
     ++ [HasFile status_file]
     ++ (if has_file w status_file then [JobStop]
         else [LogWarning "Job aborted."; JobAbort]),
     Ret tt)
  /\ final_status (start_custom w jb)
     = (if has_file w status_file then Stopped else Aborted)
  /\ (forall p wait_stdout wait_stderr,
        final_status (on_keyboard_interrupt w p wait_stdout wait_stderr)
        = (if has_file w status_file then Stopped else Aborted)).
Proof.
  intros Hargv Hk.
  pose proof (resolve_argv_not_terminal w jb argv Hargv) as Hpre.
  rewrite (start_custom_launches _ _ _ Hargv), (run_command_interrupted _ _ Hk).
  cbn [trace result fst snd]. split; [reflexivity|]. split.
  - apply final_status_after; [exact Hpre|].
    destruct (poll_is_none w), (has_file w status_file); reflexivity.
  - intros p wo we.
    destruct (on_keyboard_interrupt_classifies w p wo we) as (pre & Hnt & ->).
    apply final_status_after; [exact Hnt|].
    destruct (has_file w status_file); reflexivity.
Qed.

Lemma C6_interrupt_classification_witness :
  result (resolve_argv (world_interrupted true) jb_plain)
  = Ret ["sh"; "-c"; "python train.py"]
  /\ keyboard_interrupt (world_interrupted true) = true
  /\ final_status (start_custom (world_interrupted true) jb_plain) = Stopped
  /\ final_status (start_custom (world_interrupted false) jb_plain) = Aborted.
Proof.
  split; [reflexivity|]. split; [reflexivity|].
  destruct (C6_interrupt_classification (world_interrupted true) jb_plain
              ["sh"; "-c"; "python train.py"] eq_refl eq_refl) as (_ & Hstopped & _).
  destruct (C6_interrupt_classification (world_interrupted false) jb_plain
              ["sh"; "-c"; "python train.py"] eq_refl eq_refl) as (_ & Haborted & _).
  split; assumption.
Defined.

(** ** C7: a failing image build *)

Lemma dockerfile_content_no_spawn (image : string) (pc : project_config) :
  when_returns no_spawn (dockerfile_content image pc).
Proof. unfold dockerfile_content. when_returns_tac. Qed.

Lemma build_file_no_spawn (w : world) (pc : project_config) (image : string) :
  when_returns no_spawn (build_file w pc image).
Proof.
  unfold build_file.
  when_returns_with ltac:(apply dockerfile_content_no_spawn).
Qed.

Lemma filter_spawns_nil (tr : list event) :
  Forall no_spawn tr -> List.filter spawns tr = [].
Proof.
  induction 1 as [|e tr He _ IH]; [reflexivity|].
  simpl. rewrite He. exact IH.
Qed.

(** The run up to and including a failed build. *)
Lemma resolve_argv_build_fails (w : world) (jb : job_backend)
    (image0 : string) (command : str_or_list) (file : string) :
  let pc := project_of w jb in
  job_image (config jb) = Some image0 ->
  result (resolve_command (config jb) pc) = Ret command ->
  truthy (dockerfile pc) || truthy (install pc) = true ->
  result (build_file w pc image0) = Ret file ->
  returncode w (docker_build jb pc file) <> 0 ->
  resolve_argv w jb
  = ([LogInfo ("Switch working directory to " +:+ work_tree jb);
      Chdir (work_tree jb);
      SetSystemInfo "image/name" (VStr image0)]
     ++ trace (build_file w pc image0)
     ++ [LogInfo ("Prepare docker image: $ "
                  +:+ String.concat " " (docker_build jb pc file));
         Popen (docker_build jb pc file);
         Attach Stdout; Attach Stderr; Wait; Finalize Stdout; Finalize Stderr;
         JobFail (Some "Image build error")],
     SysExit (returncode w (docker_build jb pc file))).
Proof.
  intros pc Himage Hcommand Hbuild Hfile Hrc.
  unfold resolve_argv. fold pc.
  rewrite (resolve_command_returns _ _ _ Hcommand), Himage.
  unfold provision_image. rewrite Hbuild.
  destruct (build_file w pc image0) as [tr o]. cbn in Hfile. subst o.
  unfold execute_command.
  apply Z.eqb_neq in Hrc.
  cbn -[String.concat String.append docker_build]. rewrite Hrc.
  cbn -[String.concat String.append docker_build].
  reflexivity.
Qed.

(** C7.  In a containerized run with a build step (a dockerfile or
    install steps are configured and the build file is in place), a build
    that ends with a non-zero code makes the supervisor call
    [fail('Image build error')] and leave through [sys.exit] with that
    code; the job ends [Failed], and the build is the only child the run
    ever spawned, so the resolved command is not launched. *)
Theorem C7_build_failure (w : world) (jb : job_backend)
    (image0 : string) (command : str_or_list) (file : string) :
  let pc := project_of w jb in
  job_image (config jb) = Some image0 ->
  result (resolve_command (config jb) pc) = Ret command ->
  truthy (dockerfile pc) || truthy (install pc) = true ->
  result (build_file w pc image0) = Ret file ->
  returncode w (docker_build jb pc file) <> 0 ->
  result (start_custom w jb) = SysExit (returncode w (docker_build jb pc file))
  /\ In (JobFail (Some "Image build error")) (trace (start_custom w jb))
  /\ final_status (start_custom w jb) = Failed
  /\ List.filter spawns (trace (start_custom w jb)) = [Popen (docker_build jb pc file)]
  /\ ~ In (JobSection "command") (trace (start_custom w jb)).
Proof.
  intros pc Himage Hcommand Hbuild Hfile Hrc.
  pose proof (resolve_argv_build_fails w jb image0 command file
                Himage Hcommand Hbuild Hfile Hrc) as Hr.
  fold pc in Hr.
  pose proof (build_file_not_terminal w pc image0 file Hfile) as Hnt.
  pose proof (build_file_no_spawn w pc image0 file Hfile) as Hns.
  rewrite (start_custom_exits_early w jb (returncode w (docker_build jb pc file)));
    rewrite Hr; [|reflexivity].
  cbn [trace result fst snd]. repeat split.
  - rewrite !in_app_iff. right. right. cbn. tauto.
  - rewrite app_assoc. apply final_status_after; [|reflexivity].
    apply Forall_app. split; [repeat constructor | exact Hnt].
  - rewrite !List.filter_app, (filter_spawns_nil _ Hns). reflexivity.
  - rewrite !in_app_iff. intros [H|[H|H]].
    + cbn in H. intuition discriminate.
    + revert H. clear -Hfile. unfold build_file, dockerfile_content.
      destruct (dockerfile pc) as [[s|[|first rest]]|];
        try destruct (path_exists w s);
        try destruct (install pc) as [[s'|l']|];
        try destruct (String.prefix "FROM " first);
        cbn; intuition discriminate.
    + cbn in H. intuition discriminate.
Qed.

Lemma C7_build_failure_witness :
  job_image (config jb_image) = Some "ubuntu:16.04"
  /\ returncode world_build_fails (docker_build jb_image pc_install "Dockerfile") = 2
  /\ result (start_custom world_build_fails jb_image) = SysExit 2
  /\ final_status (start_custom world_build_fails jb_image) = Failed
  /\ List.filter spawns (trace (start_custom world_build_fails jb_image))
     = [Popen ["docker"; "build"; "-t"; "owner/model"; "-f"; "Dockerfile"; "."]].
Proof.
  split; [reflexivity|]. split; [reflexivity|].
  destruct (C7_build_failure world_build_fails jb_image "ubuntu:16.04"
              (Str "python train.py") "Dockerfile")
    as (Hexit & _ & Hstatus & Hspawn & _);
    [reflexivity | reflexivity | reflexivity | reflexivity | cbn; lia |].
  repeat split; assumption.
Defined.

(** ** C9 and C10: the argument vector that is launched *)

Lemma docker_command_structure (jb : job_backend) (pc : project_config)
    (image : string) (command : str_or_list) :
  docker_command jb pc image command
  = container_prefix jb pc ++ [image] ++ shell_wrap command.
Proof.
  unfold docker_command, container_prefix.
  destruct command; cbn -[String.append]; rewrite <- !app_assoc; reflexivity.
Qed.

Lemma resolve_argv_plain (w : world) (jb : job_backend) (command : str_or_list) :
  job_image (config jb) = None ->
  result (resolve_command (config jb) (project_of w jb)) = Ret command ->
  resolve_argv w jb
  = ([LogInfo ("Switch working directory to " +:+ work_tree jb); Chdir (work_tree jb)],
     Ret (shell_wrap command)).
Proof.
  intros Himage Hcommand. unfold resolve_argv.
  rewrite (resolve_command_returns _ _ _ Hcommand), Himage.
  destruct command; reflexivity.
Qed.

Lemma resolve_argv_containerized (w : world) (jb : job_backend)
    (image0 image : string) (command : str_or_list) :
  job_image (config jb) = Some image0 ->
  result (resolve_command (config jb) (project_of w jb)) = Ret command ->
  result (provision_image w jb (project_of w jb) image0) = Ret image ->
  resolve_argv w jb
  = ([LogInfo ("Switch working directory to " +:+ work_tree jb); Chdir (work_tree jb)]
     ++ trace (provision_image w jb (project_of w jb) image0),
     Ret (container_prefix jb (project_of w jb) ++ [image] ++ shell_wrap command)).
Proof.
  intros Himage Hcommand Hprov. unfold resolve_argv.
  rewrite (resolve_command_returns _ _ _ Hcommand), Himage.
  rewrite <- docker_command_structure.
  destruct (provision_image w jb (project_of w jb) image0) as [tr o].
  cbn in Hprov. subst o. cbn -[String.append docker_command].
  rewrite !app_nil_r. reflexivity.
Qed.

(** The image that is run: the one just built and tagged with the model
    name when there is a build step, the configured one otherwise. *)
Lemma provision_image_returns (w : world) (jb : job_backend) (pc : project_config)
    (image0 image : string) :
  result (provision_image w jb pc image0) = Ret image ->
  image = if truthy (dockerfile pc) || truthy (install pc) then model_name jb else image0.
Proof.
  unfold provision_image, execute_command, execute_command_stdout.
  destruct (truthy (dockerfile pc) || truthy (install pc)).
  - destruct (build_file w pc image0) as [tr [file|n|e]];
      cbn -[String.append String.concat]; try discriminate.
    destruct (returncode w (docker_build jb pc file) =? 0);
      cbn -[String.append String.concat]; try discriminate.
    destruct (returncode w [docker pc; "inspect"; model_name jb] =? 0);
      cbn -[String.append String.concat]; try discriminate.
    destruct (json_loads w _); cbn; intros H; inversion H; reflexivity.
  - cbn -[String.append String.concat].
    destruct (returncode w [docker pc; "inspect"; image0] =? 0);
      cbn -[String.append String.concat]; try discriminate.
    destruct (json_loads w _); cbn; intros H; inversion H; reflexivity.
Qed.

Lemma run_command_launch (w : world) (argv : list string) :
  exists rest,
    trace (run_command w argv)
    = [LogCommand argv; JobSection "command"; Popen argv] ++ rest.
Proof.
  destruct (keyboard_interrupt w) eqn:Hk.
  - rewrite (run_command_interrupted _ _ Hk). eexists. reflexivity.
  - rewrite (run_command_completes _ _ Hk). eexists. reflexivity.
Qed.

Lemma start_custom_popen (w : world) (jb : job_backend) (argv : list string) :
  result (resolve_argv w jb) = Ret argv ->
  exists rest,
    trace (start_custom w jb)
    = trace (resolve_argv w jb)
      ++ [LogCommand argv; JobSection "command"; Popen argv] ++ rest.
Proof.
  intros H. rewrite (start_custom_launches _ _ _ H).
  destruct (run_command_launch w argv) as [rest Hrest].
  exists rest. unfold trace in *. cbn [fst]. now rewrite Hrest.
Qed.

(** C9.  With the resolved command [command]: a run without an image
    launches [['sh', '-c', command]] when [command] is a string and
    [command] itself when it is a vector; a containerized run whose image
    is provisioned launches the [docker run] vector in which the same
    wrapped command follows the image reference. *)
Theorem C9_shell_wrapping (w : world) (jb : job_backend) (command : str_or_list) :
  result (resolve_command (config jb) (project_of w jb)) = Ret command ->
  (job_image (config jb) = None ->
   result (resolve_argv w jb) = Ret (shell_wrap command)
   /\ exists rest,
        trace (start_custom w jb)
        = trace (resolve_argv w jb)
          ++ [LogCommand (shell_wrap command); JobSection "command";
              Popen (shell_wrap command)] ++ rest)
  /\ (forall image0 image,
        job_image (config jb) = Some image0 ->
        result (provision_image w jb (project_of w jb) image0) = Ret image ->
        let argv := container_prefix jb (project_of w jb) ++ [image] ++ shell_wrap command in
        result (resolve_argv w jb) = Ret argv
        /\ exists rest,
             trace (start_custom w jb)
             = trace (resolve_argv w jb)
               ++ [LogCommand argv; JobSection "command"; Popen argv] ++ rest).
Proof.
  intros Hcommand. split.
  - intros Himage.
    assert (result (resolve_argv w jb) = Ret (shell_wrap command)) as Hr
      by now rewrite (resolve_argv_plain _ _ _ Himage Hcommand).
    split; [exact Hr | exact (start_custom_popen _ _ _ Hr)].
  - intros image0 image Himage Hprov argv.
    assert (result (resolve_argv w jb) = Ret argv) as Hr
      by now rewrite (resolve_argv_containerized _ _ _ _ _ Himage Hcommand Hprov).
    split; [exact Hr | exact (start_custom_popen _ _ _ Hr)].
Qed.

Lemma C9_shell_wrapping_witness :
  result (resolve_command (config jb_plain) (project_of (quiet_world pc_plain) jb_plain))
  = Ret (Str "python train.py")
  /\ result (resolve_argv (quiet_world pc_plain) jb_plain)
     = Ret ["sh"; "-c"; "python train.py"]
  /\ result (resolve_argv (quiet_world pc_vector) jb_plain)
     = Ret ["python"; "train.py"; "--epochs"; "3"]
  /\ result (resolve_argv (quiet_world pc_plain) jb_image)
     = Ret ["docker"; "run"; "--name"; "a1f3"; "--mount";
            "type=bind,source=/jobs/a1f3,destination=/exp"; "-w"; "/exp";
            "ubuntu:16.04"; "sh"; "-c"; "python train.py"].
Proof.
  split; [reflexivity|].
  destruct (C9_shell_wrapping (quiet_world pc_plain) jb_plain (Str "python train.py") eq_refl)
    as [Hplain _].
  destruct (C9_shell_wrapping (quiet_world pc_vector) jb_plain
              (Lst ["python"; "train.py"; "--epochs"; "3"]) eq_refl)
    as [Hvector _].
  destruct (C9_shell_wrapping (quiet_world pc_plain) jb_image (Str "python train.py") eq_refl)
    as [_ Himage].
  split; [exact (proj1 (Hplain eq_refl))|].
  split; [exact (proj1 (Hvector eq_refl))|].
  exact (proj1 (Himage "ubuntu:16.04" "ubuntu:16.04" eq_refl eq_refl)).
Defined.

(** C10.  In a containerized run whose image is provisioned, the vector
    that is launched is: the runtime binary, [run], [--name] and the job
    id; the configured [docker_options] in their order; [--mount] with
    the bind mount of the work tree to [/exp]; [-w /exp]; the image
    reference (the model name after a build, the configured image
    otherwise); and the resolved command, wrapped for the shell when it
    is a string. *)
Theorem C10_docker_run_argv (w : world) (jb : job_backend)
    (image0 image : string) (command : str_or_list) :
  let pc := project_of w jb in
  let argv :=
    [docker pc; "run"; "--name"; job_id jb]
    ++ docker_options pc
    ++ ["--mount"; "type=bind,source=" +:+ work_tree jb +:+ ",destination=/exp"]
    ++ ["-w"; "/exp"]
    ++ [image]
    ++ shell_wrap command in
  job_image (config jb) = Some image0 ->
  result (resolve_command (config jb) pc) = Ret command ->
  result (provision_image w jb pc image0) = Ret image ->
  image = (if truthy (dockerfile pc) || truthy (install pc) then model_name jb else image0)
  /\ result (resolve_argv w jb) = Ret argv
  /\ exists rest,
       trace (start_custom w jb)
       = trace (resolve_argv w jb)
         ++ [LogCommand argv; JobSection "command"; Popen argv] ++ rest.
Proof.
  intros pc argv Himage Hcommand Hprov.
  split; [exact (provision_image_returns _ _ _ _ _ Hprov)|].
  assert (result (resolve_argv w jb) = Ret argv) as Hr.
  { rewrite (resolve_argv_containerized _ _ _ _ _ Himage Hcommand Hprov).
    unfold argv, container_prefix. fold pc. cbn [result snd].
    now rewrite <- !app_assoc. }
  split; [exact Hr | exact (start_custom_popen _ _ _ Hr)].
Qed.

Lemma C10_docker_run_argv_witness :
  job_image (config jb_image) = Some "ubuntu:16.04"
  /\ result (provision_image (quiet_world pc_install) jb_image pc_install "ubuntu:16.04")
     = Ret "owner/model"
  /\ result (resolve_argv (quiet_world pc_install) jb_image)
     = Ret ["docker"; "run"; "--name"; "a1f3"; "--rm"; "--mount";
            "type=bind,source=/jobs/a1f3,destination=/exp"; "-w"; "/exp";
            "owner/model"; "sh"; "-c"; "python train.py"].
Proof.
  split; [reflexivity|]. split; [reflexivity|].
  exact (proj1 (proj2 (C10_docker_run_argv (quiet_world pc_install) jb_image
                         "ubuntu:16.04" "owner/model" (Str "python train.py")
                         eq_refl eq_refl eq_refl))).
Defined.

(** ** C2: which system_info writes share a transaction *)

(** *** A discipline on the events that makes a set of keys atomic *)

Lemma scope_run_app (keys : list string) (s : scope) (a b : list event) :
  scope_run keys s (a ++ b)
  = match scope_run keys s a with
    | Some s' => scope_run keys s' b
    | None => None
    end.
Proof.
  revert s. induction a as [|e a IH]; intros s; [reflexivity|].
  simpl. destruct (scope_step keys s e); [apply IH | reflexivity].
Qed.

Lemma disciplined_app (keys : list string) (a b : list event) :
  disciplined keys a -> disciplined keys b -> disciplined keys (a ++ b).
Proof. unfold disciplined. intros Ha Hb. now rewrite scope_run_app, Ha. Qed.

Lemma mem_In (k : string) (ks : list string) : mem k ks = true <-> In k ks.
Proof.
  unfold mem. rewrite existsb_exists. split.
  - intros (x & Hx & Heq). apply String.eqb_eq in Heq. now subst.
  - intros H. exists k. split; [exact H | apply String.eqb_refl].
Qed.

Lemma apply_writes_app (m : gmap string value) (l1 l2 : list (string * value)) :
  apply_writes m (l1 ++ l2) = apply_writes (apply_writes m l1) l2.
Proof. unfold apply_writes. apply fold_left_app. Qed.

Lemma apply_writes_other (l : list (string * value)) (m : gmap string value) (k : string) :
  ~ In k (map fst l) -> apply_writes m l !! k = m !! k.
Proof.
  revert m. induction l as [|[k' v] l IH]; intros m Hk; [reflexivity|].
  cbn in Hk. change (apply_writes (<[k' := v]> m) l !! k = m !! k).
  rewrite IH by tauto. apply lookup_insert_ne. tauto.
Qed.

Lemma apply_writes_written (l : list (string * value)) (m : gmap string value) (k : string) :
  In k (map fst l) -> is_Some (apply_writes m l !! k).
Proof.
  induction l as [|[k' v] l IH] using rev_ind; intros Hk; [contradiction|].
  rewrite map_app, in_app_iff in Hk. rewrite apply_writes_app. cbn.
  destruct (decide (k' = k)) as [->|Hne].
  - rewrite lookup_insert_eq. eauto.
  - rewrite lookup_insert_ne by exact Hne.
    apply IH. cbn in Hk. tauto.
Qed.

Lemma all_or_none_agree (keys : list string) (m m' : gmap string value) :
  (forall k, In k keys -> m' !! k = m !! k) ->
  all_or_none keys m -> all_or_none keys m'.
Proof.
  intros Hagree [H|H]; [left|right];
    rewrite List.Forall_forall in *; intros k Hk; rewrite (Hagree k Hk); auto.
Qed.

Lemma scope_step_sound (keys : list string) (st : store) (s s' : scope) (e : event) :
  store_in_scope st s ->
  all_or_none keys (committed st) ->
  scope_step keys s e = Some s' ->
  store_in_scope (store_step st e) s' /\ all_or_none keys (committed (store_step st e)).
Proof.
  intros Hs Hm Hstep.
  destruct e; cbn in Hstep;
    try (destruct s; inversion Hstep; subst; cbn; split; assumption).
  - (* SetSystemInfo *)
    destruct s as [|ks]; cbn in Hs.
    + destruct (mem key keys) eqn:Hmem; inversion Hstep; subst.
      cbn. rewrite Hs. cbn. split; [reflexivity|].
      apply (all_or_none_agree keys (committed st)); [|exact Hm].
      intros k Hk. apply lookup_insert_ne. intros ->.
      apply mem_In in Hk. congruence.
    + destruct Hs as (l & Hl & Hks). inversion Hstep; subst.
      cbn. rewrite Hl. cbn. split; [|exact Hm].
      exists (l ++ [(key, v)]). split; [reflexivity|].
      rewrite map_app, Hks. reflexivity.
  - (* BatchBegin *)
    destruct s; inversion Hstep; subst. cbn. split; [|exact Hm].
    exists []. split; reflexivity.
  - (* BatchEnd *)
    destruct s as [|ks]; [discriminate|].
    destruct Hs as (l & Hl & Hks).
    destruct (forallb _ keys || forallb _ keys) eqn:Hall; inversion Hstep; subst.
    cbn. rewrite Hl. cbn. split; [reflexivity|].
    apply orb_true_iff in Hall as [Hall|Hnone].
    + left. rewrite forallb_forall in Hall. apply List.Forall_forall. intros k Hk.
      apply apply_writes_written. rewrite Hks, <- in_rev.
      apply mem_In, Hall, Hk.
    + apply (all_or_none_agree keys (committed st)); [|exact Hm].
      rewrite forallb_forall in Hnone. intros k Hk.
      apply apply_writes_other. rewrite Hks, <- in_rev. intros Hin.
      apply mem_In in Hin. specialize (Hnone k Hk). rewrite Hin in Hnone. discriminate.
Qed.

Lemma scope_run_prefix (keys : list string) (tr : list event) (n : nat) (s : scope) :
  is_Some (scope_run keys s tr) -> is_Some (scope_run keys s (take n tr)).
Proof.
  revert n s. induction tr as [|e tr IH]; intros [|n] s H; cbn; eauto.
  cbn in H. destruct (scope_step keys s e); [apply IH, H | exact H].
Qed.

Lemma scope_run_sound (keys : list string) (tr : list event) (st : store) (s s' : scope) :
  store_in_scope st s ->
  all_or_none keys (committed st) ->
  scope_run keys s tr = Some s' ->
  all_or_none keys (committed (store_run st tr)).
Proof.
  revert st s. induction tr as [|e tr IH]; intros st s Hs Hm Hrun; [exact Hm|].
  cbn in Hrun. destruct (scope_step keys s e) as [s1|] eqn:Hstep; [|discriminate].
  destruct (scope_step_sound keys st s s1 e Hs Hm Hstep) as [Hs1 Hm1].
  exact (IH _ _ Hs1 Hm1 Hrun).
Qed.

Lemma all_or_none_empty (keys : list string) : all_or_none keys (∅ : gmap string value).
Proof. right. apply List.Forall_forall. intros k _. apply lookup_empty. Qed.

(** A disciplined run writes [keys] atomically. *)
Lemma disciplined_atomic (keys : list string) (tr : list event) :
  disciplined keys tr -> atomic_for keys tr.
Proof.
  intros Hd n. unfold observable.
  destruct (scope_run_prefix keys tr n Outside) as [s' Hs']; [rewrite Hd; eauto|].
  apply (scope_run_sound keys (take n tr) new_store Outside s');
    [reflexivity | apply all_or_none_empty | exact Hs'].
Qed.

(** *** The events of [start_custom] follow the discipline *)

Section Always.
Variable P : list event -> Prop.
Hypothesis P_nil : P [].
Hypothesis P_app : forall a b, P a -> P b -> P (a ++ b).

Lemma always_mret {A} (a : A) : always P (mret a).
Proof. exact P_nil. Qed.

Lemma always_sys_exit {A} (n : Z) : always P (@sys_exit A n).
Proof. exact P_nil. Qed.

Lemma always_raise {A} (e : exn) : always P (@raise A e).
Proof. exact P_nil. Qed.

Lemma always_bind {A B} (m : M A) (f : A -> M B) :
  always P m -> (forall a, always P (f a)) -> always P (m ≫= f).
Proof.
  intros Hm Hf. unfold always, mbind, M_bind, trace in *.
  destruct m as [tr [a|n|e]]; cbn in *; auto.
Qed.

Lemma always_try_except {A} (body handler : M A) :
  always P body -> always P handler -> always P (try_except body handler).
Proof.
  intros Hb Hh. unfold always, try_except, trace in *.
  destruct body as [tr [a|n|[]]]; cbn in *; auto.
Qed.

End Always.

Ltac always_with leaf :=
  repeat first
    [ leaf
    | reflexivity
    | apply always_mret; [reflexivity]
    | apply always_sys_exit; [reflexivity]
    | apply always_raise; [reflexivity]
    | apply always_bind; [apply disciplined_app | | ]
    | apply always_try_except; [apply disciplined_app | | ]
    | match goal with
      | |- forall _, _ => intro
      | |- always _ (match ?x with _ => _ end) => destruct x
      | |- always _ (if ?x then _ else _) => destruct x
      end ].

Lemma start_custom_disciplined (w : world) (jb : job_backend) :
  always (disciplined inspection_keys) (start_custom w jb).
Proof.
  unfold start_custom, resolve_argv, resolve_command, provision_image, build_file,
    dockerfile_content, execute_command, execute_command_stdout, run_command,
    on_keyboard_interrupt.
  always_with fail.
Qed.

Lemma bind_emit {B} (e : event) (f : unit -> M B) :
  emit e ≫= f = (e :: trace (f tt), result (f tt)).
Proof. reflexivity. Qed.

Lemma trace_bind_prefix {A B} (m : M A) (f : A -> M B) :
  exists rest, trace (m ≫= f) = trace m ++ rest.
Proof.
  unfold mbind, M_bind, trace. destruct m as [tr [a|n|e]]; cbn.
  - eexists. reflexivity.
  - exists []. now rewrite app_nil_r.
  - exists []. now rewrite app_nil_r.
Qed.

(** C2, as stated, fails: [image/name] is written by itself (line 82),
    before the build, the pull and the inspection, and outside the
    [batch_commit] scope.  After the first three events of a
    containerized run the record holds [image/name] and not [image/id],
    although the run writes [image/id] later. *)
Lemma C2_counterexample :
  let tr := trace (start_custom (quiet_world pc_plain) jb_image) in
  observable (take 3 tr) !! "image/name" = Some (VStr "ubuntu:16.04")
  /\ observable (take 3 tr) !! "image/id" = None
  /\ observable tr !! "image/id" = Some (VStr "sha256:4e5021d210f6")
  /\ ~ atomic_for image_keys tr.
Proof.
  cbv zeta.
  assert (observable (take 3 (trace (start_custom (quiet_world pc_plain) jb_image)))
            !! "image/name" = Some (VStr "ubuntu:16.04")) as Hname by reflexivity.
  assert (observable (take 3 (trace (start_custom (quiet_world pc_plain) jb_image)))
            !! "image/id" = None) as Hid by reflexivity.
  split; [exact Hname|]. split; [exact Hid|]. split; [reflexivity|].
  intros Hatomic. destruct (Hatomic 3%nat) as [Hall|Hnone].
  - apply List.Forall_forall with (x := "image/id") in Hall.
    + rewrite Hid in Hall. destruct Hall as [v Hv]. discriminate Hv.
    + cbn. tauto.
  - apply List.Forall_forall with (x := "image/name") in Hnone.
    + rewrite Hname in Hnone. discriminate Hnone.
    + cbn. tauto.
Qed.

Lemma provision_image_first (w : world) (jb : job_backend) (pc : project_config)
    (image0 : string) :
  exists rest,
    trace (provision_image w jb pc image0)
    = SetSystemInfo "image/name" (VStr image0) :: rest.
Proof. unfold provision_image. rewrite bind_emit. eexists. reflexivity. Qed.

Lemma start_custom_first_events (w : world) (jb : job_backend)
    (image0 : string) (command : str_or_list) :
  job_image (config jb) = Some image0 ->
  result (resolve_command (config jb) (project_of w jb)) = Ret command ->
  exists rest,
    trace (start_custom w jb)
    = [LogInfo ("Switch working directory to " +:+ work_tree jb);
       Chdir (work_tree jb);
       SetSystemInfo "image/name" (VStr image0)] ++ rest.
Proof.
  intros Himage Hcommand. unfold start_custom.
  destruct (trace_bind_prefix (resolve_argv w jb) (fun c => run_command w c))
    as [rest ->].
  unfold resolve_argv.
  rewrite (resolve_command_returns _ _ _ Hcommand), Himage.
  destruct (provision_image_first w jb (project_of w jb) image0) as [r Hr].
  destruct (provision_image w jb (project_of w jb) image0) as [tr o].
  cbn in Hr. subst tr.
  destruct o; cbn -[String.append docker_command]; eexists; reflexivity.
Qed.

(** C2, amended.  The eight keys taken from the inspection ([image/id],
    [image/docker_version], [image/created], [image/container],
    [image/architecture], [image/os], [image/size], [image/rootfs]) are
    written inside one [batch_commit('Docker image')] scope: wherever the
    run is cut, the record holds all eight or none of them.
    [image/name] is not part of that scope: a containerized run writes it
    first, on its own, and it is in the record from then on. *)
Theorem C2_inspection_keys_atomic (w : world) (jb : job_backend) :
  atomic_for inspection_keys (trace (start_custom w jb))
  /\ (forall image0 command,
        job_image (config jb) = Some image0 ->
        result (resolve_command (config jb) (project_of w jb)) = Ret command ->
        let first_events :=
          [LogInfo ("Switch working directory to " +:+ work_tree jb);
           Chdir (work_tree jb);
           SetSystemInfo "image/name" (VStr image0)] in
        (exists rest, trace (start_custom w jb) = first_events ++ rest)
        /\ observable first_events !! "image/name" = Some (VStr image0)).
Proof.
  split.
  - apply disciplined_atomic. exact (start_custom_disciplined w jb).
  - intros image0 command Himage Hcommand first_events. split.
    + exact (start_custom_first_events w jb image0 command Himage Hcommand).
    + unfold observable, first_events. cbn. apply lookup_insert_eq.
Qed.

Lemma C2_inspection_keys_atomic_witness :
  job_image (config jb_image) = Some "ubuntu:16.04"
  /\ atomic_for inspection_keys (trace (start_custom (quiet_world pc_install) jb_image))
  /\ exists rest,
       trace (start_custom (quiet_world pc_install) jb_image)
       = [LogInfo "Switch working directory to /jobs/a1f3";
          Chdir "/jobs/a1f3";
          SetSystemInfo "image/name" (VStr "ubuntu:16.04")] ++ rest.
Proof.
  split; [reflexivity|].
  destruct (C2_inspection_keys_atomic (quiet_world pc_install) jb_image)
    as [Hatomic Hname].
  split; [exact Hatomic|].
  exact (proj1 (Hname "ubuntu:16.04" (Str "python train.py") eq_refl eq_refl)).
Defined.

(** ** C3: a failing pull *)

(** C3 does not hold of the code.  [execute_command] returns the pull's
    process and [start_custom] drops it without reading [returncode]:
    with a pull that ends with code 1 the run goes on to inspect the
    image, launches the command in the container and ends [Done] with
    exit code 0. *)
Lemma C3_pull_failure_ignored :
  returncode world_pull_fails ["docker"; "pull"; "ubuntu:16.04"] = 1
  /\ start_custom world_pull_fails jb_image
     = ([LogInfo "Switch working directory to /jobs/a1f3";
         Chdir "/jobs/a1f3";
         SetSystemInfo "image/name" (VStr "ubuntu:16.04");
         LogInfo "Pull docker image: $ ubuntu:16.04";
         Popen ["docker"; "pull"; "ubuntu:16.04"];
         Attach Stdout; Attach Stderr; Wait; Finalize Stdout; Finalize Stderr;
         Popen ["docker"; "inspect"; "ubuntu:16.04"]; Communicate;
         BatchBegin "Docker image";
         SetSystemInfo "image/id" (Id insp_ubuntu);
         SetSystemInfo "image/docker_version" (DockerVersion insp_ubuntu);
         SetSystemInfo "image/created" (Created insp_ubuntu);
         SetSystemInfo "image/container" (Container insp_ubuntu);
         SetSystemInfo "image/architecture" (Architecture insp_ubuntu);
         SetSystemInfo "image/os" (Os insp_ubuntu);
         SetSystemInfo "image/size" (Size insp_ubuntu);
         SetSystemInfo "image/rootfs" (RootFS insp_ubuntu);
         BatchEnd;
         Call ["docker"; "rm"; "a1f3"];
         LogCommand ["docker"; "run"; "--name"; "a1f3"; "--mount";
                     "type=bind,source=/jobs/a1f3,destination=/exp"; "-w"; "/exp";
                     "ubuntu:16.04"; "sh"; "-c"; "python train.py"];
         JobSection "command";
         Popen ["docker"; "run"; "--name"; "a1f3"; "--mount";
                "type=bind,source=/jobs/a1f3,destination=/exp"; "-w"; "/exp";
                "ubuntu:16.04"; "sh"; "-c"; "python train.py"];
         Attach Stdout; Attach Stderr; Wait; Finalize Stdout; Finalize Stderr;
         SetSystemInfo "exit_code" (VInt 0)],
        SysExit 0)
  /\ final_status (start_custom world_pull_fails jb_image) = Done.
Proof. repeat split. Qed.

(** ** Properties of the events of a run, computation by computation *)

Lemma forall_app (Q : event -> Prop) (a b : list event) :
  Forall Q a -> Forall Q b -> Forall Q (a ++ b).
Proof. intros Ha Hb. apply Forall_app. split; assumption. Qed.

(** [app] is the proof that the property is kept by [++]; [leaf] closes
    the goals about computations that are not to be taken apart. *)
Ltac always_by app leaf :=
  repeat first
    [ leaf
    | solve [unfold always; cbn; first [reflexivity | repeat constructor]]
    | apply always_bind; [apply app | | ]
    | apply always_try_except; [apply app | | ]
    | match goal with
      | |- forall _, _ => intro
      | |- always _ (match ?x with _ => _ end) => destruct x
      | |- always _ (if ?x then _ else _) => destruct x
      end ].

(** ** C1: the build file that is written *)

Lemma dockerfile_content_trace (image : string) (pc : project_config) :
  trace (dockerfile_content image pc) = [].
Proof.
  unfold dockerfile_content.
  destruct (dockerfile pc) as [[s|[|first rest]]|];
    try destruct (install pc) as [[s'|l']|];
    try destruct (String.prefix "FROM " first);
    reflexivity.
Qed.

Lemma build_file_writes (w : world) (pc : project_config) (image : string) :
  always (Forall (writes_build_file pc (Some image))) (build_file w pc image).
Proof.
  assert (always (Forall (writes_build_file pc (Some image)))
            (dockerfile_content ← dockerfile_content image pc;
             emit (WriteFile "Dockerfile" dockerfile_content);;
             emit (CommitFile "Dockerfile");;
             mret "Dockerfile")) as Hsynth.
  { pose proof (dockerfile_content_trace image pc) as Ht.
    destruct (dockerfile_content image pc) as [tr [content|n|e]] eqn:E;
      cbn in Ht; subst tr; unfold always; cbn; repeat constructor.
    exists image. rewrite E. repeat split. }
  unfold build_file.
  destruct (dockerfile pc) as [[path|l]|]; try exact Hsynth.
  destruct (path_exists w path); [constructor | exact Hsynth].
Qed.

Lemma provision_image_writes (w : world) (jb : job_backend) (pc : project_config)
    (image : string) :
  always (Forall (writes_build_file pc (Some image))) (provision_image w jb pc image).
Proof.
  unfold provision_image.
  always_by forall_app
    ltac:(apply build_file_writes).
Qed.

Lemma run_command_writes (w : world) (pc : project_config) (image : option string)
    (argv : list string) :
  always (Forall (writes_build_file pc image)) (run_command w argv).
Proof.
  unfold run_command, on_keyboard_interrupt.
  always_by forall_app fail.
Qed.

Lemma start_custom_writes (w : world) (jb : job_backend) :
  always (Forall (writes_build_file (project_of w jb) (job_image (config jb))))
    (start_custom w jb).
Proof.
  unfold start_custom, resolve_argv, resolve_command.
  always_by forall_app
    ltac:(first [ apply provision_image_writes | apply run_command_writes ]).
Qed.

Lemma build_file_synthesizes (w : world) (pc : project_config) (image content : string) :
  match dockerfile pc with
  | Some (Str path) => path_exists w path
  | _ => false
  end = false ->
  result (dockerfile_content image pc) = Ret content ->
  build_file w pc image
  = ([WriteFile "Dockerfile" content; CommitFile "Dockerfile"], Ret "Dockerfile").
Proof.
  intros Hpath Hcontent.
  pose proof (dockerfile_content_trace image pc) as Ht.
  unfold build_file.
  destruct (dockerfile_content image pc) as [tr o]. cbn in Ht, Hcontent. subst tr o.
  destruct (dockerfile pc) as [[path|l]|]; try reflexivity.
  rewrite Hpath. reflexivity.
Qed.

Lemma provision_image_writes_first (w : world) (jb : job_backend) (pc : project_config)
    (image content : string) :
  truthy (dockerfile pc) || truthy (install pc) = true ->
  build_file w pc image
  = ([WriteFile "Dockerfile" content; CommitFile "Dockerfile"], Ret "Dockerfile") ->
  exists rest,
    trace (provision_image w jb pc image)
    = [SetSystemInfo "image/name" (VStr image);
       WriteFile "Dockerfile" content; CommitFile "Dockerfile"] ++ rest.
Proof.
  intros Hbuild Hfile. unfold provision_image. rewrite bind_emit, Hbuild.
  cbn [trace fst].
  repeat match goal with
         | |- context [trace (?m ≫= ?f)] =>
             let r := fresh "rest" in
             let H := fresh "H" in
             destruct (trace_bind_prefix m f) as [r H]; rewrite H; clear H
         end.
  rewrite Hfile. cbn [trace fst]. eexists. cbn. reflexivity.
Qed.

(** C1, amended.  Every file a run of [start_custom] writes is the
    synthesized build file: the run is containerized, the file is
    [Dockerfile], and its first line is the provenance comment.
    Literal text is written as it is below that comment; a list of lines
    whose first line starts with [FROM ] is written joined by newlines
    below it; and when no dockerfile is given (absent, or an empty list)
    the first line that is not a comment is [FROM <image>], whether
    [install] is one string or a list.  Conversely, a containerized run
    with a build step whose dockerfile is not an existing file writes
    and commits the synthesized content right after recording the image
    name. *)
Theorem C1_synthesized_build_file (w : world) (jb : job_backend) :
  let pc := project_of w jb in
  (forall path content,
     In (WriteFile path content) (trace (start_custom w jb)) ->
     exists image,
       job_image (config jb) = Some image
       /\ path = "Dockerfile"
       /\ first_line content = Some provenance_line
       /\ is_comment provenance_line = true
       /\ (forall text, dockerfile pc = Some (Str text) ->
             content = provenance_line +:+ nl +:+ text)
       /\ (forall first rest, dockerfile pc = Some (Lst (first :: rest)) ->
             String.prefix "FROM " first = true ->
             content = provenance_line +:+ nl +:+ String.concat nl (first :: rest))
       /\ (dockerfile pc = None \/ dockerfile pc = Some (Lst []) ->
             has_newline image = false ->
             first_non_comment_line content = Some ("FROM " +:+ image)))
  /\ (forall image command content,
        job_image (config jb) = Some image ->
        result (resolve_command (config jb) pc) = Ret command ->
        truthy (dockerfile pc) || truthy (install pc) = true ->
        match dockerfile pc with
        | Some (Str path) => path_exists w path
        | _ => false
        end = false ->
        result (dockerfile_content image pc) = Ret content ->
        exists rest,
          trace (start_custom w jb)
          = [LogInfo ("Switch working directory to " +:+ work_tree jb);
             Chdir (work_tree jb);
             SetSystemInfo "image/name" (VStr image);
             WriteFile "Dockerfile" content;
             CommitFile "Dockerfile"] ++ rest).
Proof.
  intros pc. split.
  - intros path content Hin.
    pose proof (start_custom_writes w jb) as Hall. unfold always in Hall.
    rewrite List.Forall_forall in Hall. specialize (Hall _ Hin).
    destruct Hall as (image & Himage & Hpath & Hcontent).
    exists image. split; [exact Himage|]. split; [exact Hpath|].
    exact (dockerfile_content_shape image pc content Hcontent).
  - intros image command content Himage Hcommand Hbuild Hpath Hcontent.
    pose proof (build_file_synthesizes w pc image content Hpath Hcontent) as Hfile.
    destruct (provision_image_writes_first w jb pc image content Hbuild Hfile)
      as [rest Hrest].
    unfold start_custom.
    destruct (trace_bind_prefix (resolve_argv w jb) (fun c => run_command w c))
      as [rest' ->].
    unfold resolve_argv. fold pc.
    rewrite (resolve_command_returns _ _ _ Hcommand), Himage.
    destruct (provision_image w jb pc image) as [tr o].
    cbn in Hrest. subst tr.
    destruct o; cbn -[String.append docker_command]; eexists; reflexivity.
Qed.

Lemma C1_synthesized_build_file_witness :
  job_image (config jb_image) = Some "ubuntu:16.04"
  /\ result (dockerfile_content "ubuntu:16.04" pc_install)
     = Ret (provenance_line +:+ nl +:+ "FROM ubuntu:16.04" +:+ nl
            +:+ "RUN pip install keras" +:+ nl +:+ " RUN pip install h5py")
  /\ In (WriteFile "Dockerfile"
          (provenance_line +:+ nl +:+ "FROM ubuntu:16.04" +:+ nl
           +:+ "RUN pip install keras" +:+ nl +:+ " RUN pip install h5py"))
        (trace (start_custom (quiet_world pc_install) jb_image))
  /\ first_non_comment_line
       (provenance_line +:+ nl +:+ "FROM ubuntu:16.04" +:+ nl
        +:+ "RUN pip install keras" +:+ nl +:+ " RUN pip install h5py")
     = Some "FROM ubuntu:16.04".
Proof.
  split; [reflexivity|]. split; [reflexivity|].
  destruct (C1_synthesized_build_file (quiet_world pc_install) jb_image)
    as [Hwritten Hwrites].
  destruct (Hwrites "ubuntu:16.04" (Str "python train.py")
              (provenance_line +:+ nl +:+ "FROM ubuntu:16.04" +:+ nl
               +:+ "RUN pip install keras" +:+ nl +:+ " RUN pip install h5py")
              eq_refl eq_refl eq_refl eq_refl eq_refl) as [rest Hrest].
  assert (In (WriteFile "Dockerfile"
                (provenance_line +:+ nl +:+ "FROM ubuntu:16.04" +:+ nl
                 +:+ "RUN pip install keras" +:+ nl +:+ " RUN pip install h5py"))
             (trace (start_custom (quiet_world pc_install) jb_image))) as Hin.
  { rewrite Hrest. do 3 right. left. reflexivity. }
  split; [exact Hin|].
  destruct (Hwritten _ _ Hin) as (image & Himage & _ & _ & _ & _ & _ & Hfrom).
  injection Himage as <-.
  apply Hfrom; [left; reflexivity | reflexivity].
Defined.

(** ** C8: the drains of the children of a run *)

Lemma supervise_run_app (strict : bool) (st : drain_state) (a b : list event) :
  supervise_run strict st (a ++ b)
  = match supervise_run strict st a with
    | Some st' => supervise_run strict st' b
    | None => None
    end.
Proof.
  revert st. induction a as [|e a IH]; intros st; [reflexivity|].
  simpl. destruct (supervise_step strict st e); [apply IH | reflexivity].
Qed.

Lemma supervised_app (a b : list event) :
  supervised a -> supervised b -> supervised (a ++ b).
Proof. unfold supervised. intros Ha Hb. now rewrite supervise_run_app, Ha. Qed.

Lemma execute_command_stdout_supervised (w : world) (command : list string) :
  always supervised (execute_command_stdout w command).
Proof.
  unfold always, execute_command_stdout.
  destruct (returncode w command =? 0); reflexivity.
Qed.

Lemma execute_command_stdout_no_drain (w : world) (command : list string) :
  Forall no_drain (trace (execute_command_stdout w command)).
Proof.
  unfold execute_command_stdout.
  destruct (returncode w command =? 0); cbn; repeat constructor.
Qed.

Lemma provision_image_supervised (w : world) (jb : job_backend) (pc : project_config)
    (image : string) :
  always supervised (provision_image w jb pc image).
Proof.
  unfold provision_image, build_file, dockerfile_content.
  always_by supervised_app ltac:(apply execute_command_stdout_supervised).
Qed.

Lemma resolve_argv_supervised (w : world) (jb : job_backend) :
  always supervised (resolve_argv w jb).
Proof.
  unfold resolve_argv, resolve_command.
  always_by supervised_app ltac:(apply provision_image_supervised).
Qed.

Lemma run_command_supervised (w : world) (argv : list string) :
  keyboard_interrupt w = false \/ poll_is_none w = true ->
  always supervised (run_command w argv).
Proof.
  intros H. unfold always. destruct (keyboard_interrupt w) eqn:Hk.
  - destruct H as [H|H]; [discriminate|].
    rewrite (run_command_interrupted _ _ Hk), H.
    destruct (has_file w status_file); reflexivity.
  - rewrite (run_command_completes _ _ Hk).
    destruct (returncode w argv =? 0); reflexivity.
Qed.

(** C8, as stated, fails: not every child the supervisor launches gets
    drain tasks.  In a containerized run the [docker inspect] child is
    spawned with pipes and read with [communicate()], and [docker rm] is
    run through [subprocess.call]; neither has a drain attached, so the
    strict order is broken at the eleventh event of the run. *)
Lemma C8_counterexample :
  let tr := trace (start_custom (quiet_world pc_plain) jb_image) in
  tr !! 10%nat = Some (Popen ["docker"; "inspect"; "ubuntu:16.04"])
  /\ tr !! 11%nat = Some Communicate
  /\ supervise_run true NotSpawned (take 11 tr) = Some (Spawned false false)
  /\ supervise_run true NotSpawned tr = None
  /\ In (Call ["docker"; "rm"; "a1f3"]) tr
  /\ ~ In (Attach Stdout) (take 12 (drop 10 tr)).
Proof.
  cbv zeta. repeat split; try reflexivity.
  - do 22 right. left. reflexivity.
  - cbn. intuition discriminate.
Qed.

(** C8, amended.  The job's command (lines 173-193) and every child
    launched through [execute_command] (the build and the pull) get one
    drain on stdout and one on stderr after the spawn and before the
    supervisor waits.  When the wait returns, or is interrupted while
    the child still runs, both finalizers are called after the child is
    gone, and over the whole run every child is waited for before the
    next one is spawned.  The child of [execute_command_stdout]
    ([docker inspect], read with [communicate()]) has no drain. *)
Theorem C8_drains_attached_before_wait (w : world) (argv : list string) :
  (keyboard_interrupt w = false \/ poll_is_none w = true ->
   drain_run NotSpawned (trace (run_command w argv)) = Some (Exited true true)
   /\ forall jb, supervised (trace (start_custom w jb)))
  /\ drain_run NotSpawned (trace (execute_command w argv)) = Some (Exited true true)
  /\ (exists rest,
       trace (run_command w argv)
       = [LogCommand argv; JobSection "command"; Popen argv; Attach Stdout; Attach Stderr]
         ++ (if keyboard_interrupt w then [WaitInterrupted; Poll]
             else [Wait; Finalize Stdout; Finalize Stderr])
         ++ rest)
  /\ (forall jb,
       match result (resolve_argv w jb) with
       | Ret command =>
           trace (start_custom w jb)
           = trace (resolve_argv w jb) ++ trace (run_command w command)
       | _ => trace (start_custom w jb) = trace (resolve_argv w jb)
       end)
  /\ Forall no_drain (trace (execute_command_stdout w argv)).
Proof.
  split; [|split; [reflexivity|split; [|split]]].
  - intros H. split.
    + destruct (keyboard_interrupt w) eqn:Hk.
      * destruct H as [H|H]; [discriminate|].
        rewrite (run_command_interrupted _ _ Hk), H.
        destruct (has_file w status_file); reflexivity.
      * rewrite (run_command_completes _ _ Hk).
        destruct (returncode w argv =? 0); reflexivity.
    + intros jb. unfold start_custom.
      apply (always_bind supervised supervised_app).
      * apply resolve_argv_supervised.
      * intros command. apply run_command_supervised, H.
  - destruct (keyboard_interrupt w) eqn:Hk.
    + rewrite (run_command_interrupted _ _ Hk).
      eexists. reflexivity.
    + rewrite (run_command_completes _ _ Hk).
      eexists. reflexivity.
  - intros jb. unfold start_custom.
    destruct (result (resolve_argv w jb)) as [command|n|e] eqn:Hr.
    + now rewrite (bind_ret _ _ _ Hr).
    + now rewrite (bind_sys_exit _ _ _ Hr).
    + now rewrite (bind_raise _ _ _ Hr).
  - apply execute_command_stdout_no_drain.
Qed.

Lemma C8_drains_attached_before_wait_witness :
  keyboard_interrupt (quiet_world pc_install) = false
  /\ drain_run NotSpawned
       (trace (run_command (quiet_world pc_install) ["sh"; "-c"; "python train.py"]))
     = Some (Exited true true)
  /\ supervised (trace (start_custom (quiet_world pc_install) jb_image))
  /\ supervised (trace (start_custom (world_interrupted true) jb_plain)).
Proof.
  split; [reflexivity|].
  destruct (C8_drains_attached_before_wait (quiet_world pc_install)
              ["sh"; "-c"; "python train.py"]) as [Hquiet _].
  destruct (C8_drains_attached_before_wait (world_interrupted true)
              ["sh"; "-c"; "python train.py"]) as [Hinterrupted _].
  destruct (Hquiet (or_introl eq_refl)) as [Hdrain Hrun].
  destruct (Hinterrupted (or_intror eq_refl)) as [_ Hrun'].
  split; [exact Hdrain|]. split; [apply Hrun | apply Hrun'].
Defined.
